(** * portfolio-sync: the metadata inference engine, embedded and verified

    The development follows the TypeScript sources:
    - [src/generate.ts]            (module [Cli]): the command-line aggregator;
    - [web/src/lib/portfolio.ts]   (module [Web]): the browser variant, with the
      sort of [startScan] from the page component;
    - [src/schema.ts]              (module [Schema]): the zod schema and
      [validateConfig];
    - [src/detectors/readme-parser.ts]   (module [Readme]);
    - [src/detectors/asset-detector.ts]  (module [Assets]);
    - [src/detectors/metadata-detector.ts] (module [Metadata]);
    - [src/cli.ts]                 (module [Commands]): [init] and [update].

    JavaScript strings are modelled as [string] (sequences of bytes; the
    texts the engine inspects are ASCII), [undefined]/[null] as [None],
    arrays as lists.  What the platform provides (the clock, [Date] parsing,
    [JSON.parse], the [URL] constructor) is gathered in a [Host] record that
    the functions take as an argument. *)

From Stdlib Require Import String Ascii List ZArith Lia Bool Arith.
From Stdlib Require Import Sorted Permutation DecimalString.
Import ListNotations.
Open Scope string_scope.

Set Implicit Arguments.
Set Warnings "-register-all".

(* ================================================================== *)
(** * Part I. Definitions                                              *)
(* ================================================================== *)

(** ** JavaScript strings *)

Module Js.

Definition nl : string := String "010"%char EmptyString.
Definition dq : string := String "034"%char EmptyString.

(** [x || y] on strings that may be absent: the empty string is falsy. *)
Definition truthy (o : option string) : bool :=
  match o with
  | Some s => negb (s =? "")
  | None => false
  end.

Definition or_else (o : option string) (d : option string) : option string :=
  if truthy o then o else d.

(** [s.startsWith(p)] *)
Definition startsWith (s p : string) : bool := String.prefix p s.

Fixpoint rev_string (s : string) : string :=
  match s with
  | EmptyString => EmptyString
  | String c r => rev_string r ++ String c EmptyString
  end.

(** [s.endsWith(e)] *)
Definition endsWith (s e : string) : bool :=
  String.prefix (rev_string e) (rev_string s).

(** [s.includes(sub)] *)
Fixpoint includes (s sub : string) : bool :=
  String.prefix sub s
  || match s with
     | EmptyString => false
     | String _ r => includes r sub
     end.

Definition lower_ascii (c : ascii) : ascii :=
  let n := nat_of_ascii c in
  if (65 <=? n)%nat && (n <=? 90)%nat then ascii_of_nat (n + 32) else c.

Definition upper_ascii (c : ascii) : ascii :=
  let n := nat_of_ascii c in
  if (97 <=? n)%nat && (n <=? 122)%nat then ascii_of_nat (n - 32) else c.

(** [s.toLowerCase()] *)
Fixpoint toLowerCase (s : string) : string :=
  match s with
  | EmptyString => EmptyString
  | String c r => String (lower_ascii c) (toLowerCase r)
  end.

(** White space as [trim] sees it: tab, line feed, vertical tab, form
    feed, carriage return and space. *)
Definition is_space (c : ascii) : bool :=
  let n := nat_of_ascii c in
  ((9 <=? n)%nat && (n <=? 13)%nat) || (n =? 32)%nat.

Fixpoint trimStart (s : string) : string :=
  match s with
  | EmptyString => EmptyString
  | String c r => if is_space c then trimStart r else s
  end.

Definition trimEnd (s : string) : string :=
  rev_string (trimStart (rev_string s)).

(** [s.trim()] *)
Definition trim (s : string) : string := trimEnd (trimStart s).

(** [s.split(sep)] for a one-character separator: never the empty list. *)
Fixpoint split (sep : ascii) (s : string) : list string :=
  match s with
  | EmptyString => [EmptyString]
  | String c r =>
      if Ascii.eqb c sep then EmptyString :: split sep r
      else match split sep r with
           | [] => [String c EmptyString]
           | w :: ws => String c w :: ws
           end
  end.

(** [parts.join(sep)] *)
Definition join (sep : string) (parts : list string) : string :=
  String.concat sep parts.

(** [s.slice(0, n)] *)
Definition slice0 (n : nat) (s : string) : string := substring 0 n s.

(** [arr.pop()] on a fresh array: its last element. *)
Definition pop (l : list string) : option string :=
  match rev l with
  | [] => None
  | x :: _ => Some x
  end.

(** [String(n)] for an integer. *)
Definition ofZ (z : Z) : string := NilZero.string_of_int (Z.to_int z).

(** [s.padStart(2, "0")] *)
Definition padStart2 (s : string) : string :=
  match String.length s with
  | 0 => "00"
  | 1 => "0" ++ s
  | _ => s
  end.

Definition mem (x : string) (l : list string) : bool :=
  existsb (String.eqb x) l.

(** [[...new Set(l)]]: every value once, at the place of its first
    occurrence. *)
Fixpoint uniq_from (seen : list string) (l : list string) : list string :=
  match l with
  | [] => []
  | x :: r => if mem x seen then uniq_from seen r
              else x :: uniq_from (x :: seen) r
  end.

Definition uniq (l : list string) : list string := uniq_from [] l.

(** The regular expression [/^[^.!?]+[.!?]/]: the longest run of
    characters other than a terminator, at least one, followed by a
    terminator. [match[0]] when it matches. *)
Definition is_terminator (c : ascii) : bool :=
  Ascii.eqb c "." || Ascii.eqb c "!" || Ascii.eqb c "?".

Fixpoint sentence_rest (s : string) : option string :=
  match s with
  | EmptyString => None
  | String c r =>
      if is_terminator c then Some (String c EmptyString)
      else option_map (String c) (sentence_rest r)
  end.

Definition matchSentence (s : string) : option string :=
  match s with
  | EmptyString => None
  | String c r =>
      if is_terminator c then None
      else option_map (String c) (sentence_rest r)
  end.

Definition is_digit (c : ascii) : bool :=
  let n := nat_of_ascii c in (48 <=? n)%nat && (n <=? 57)%nat.

(** The regular expression [/^\d{4}-\d{2}$/]. *)
Definition matchesYearMonth (s : string) : bool :=
  match s with
  | String a (String b (String c (String d (String h (String m1 (String m2 EmptyString)))))) =>
      is_digit a && is_digit b && is_digit c && is_digit d
      && Ascii.eqb h "-" && is_digit m1 && is_digit m2
  | _ => false
  end.

(** [a.localeCompare(b)] as the sign of the comparison.  The strings the
    sort compares are dates ([YYYY-MM], digits and a hyphen) or empty; on
    these the collation order is the order of the character codes. *)
Definition localeCompare (a b : string) : comparison := String.compare a b.

End Js.

(** ** JSON documents *)

Module Json.

(** A parsed JSON document.  Numbers occur in override documents only as
    ill-typed values, integers suffice for them. *)
Inductive JValue : Type :=
| JNull
| JBool (b : bool)
| JNum (n : Z)
| JStr (s : string)
| JArr (items : list JValue)
| JObj (members : list (string * JValue)).

(** [obj[key]]: [JSON.parse] keeps the last of repeated members; an
    absent member reads as [undefined]. *)
Fixpoint get (key : string) (members : list (string * JValue)) : option JValue :=
  match members with
  | [] => None
  | (k, v) :: rest =>
      match get key rest with
      | Some v' => Some v'
      | None => if k =? key then Some v else None
      end
  end.

Definition hex_digit (n : nat) : ascii :=
  if (n <? 10)%nat then ascii_of_nat (48 + n) else ascii_of_nat (87 + n).

(** The escapes of [JSON.stringify] inside a string literal. *)
Definition escape_char (c : ascii) : string :=
  let n := nat_of_ascii c in
  if (n =? 34)%nat then "\" ++ Js.dq
  else if (n =? 92)%nat then "\\"
  else if (n =? 8)%nat then "\b"
  else if (n =? 9)%nat then "\t"
  else if (n =? 10)%nat then "\n"
  else if (n =? 12)%nat then "\f"
  else if (n =? 13)%nat then "\r"
  else if (n <? 32)%nat then
    "\u00" ++ String (hex_digit (n / 16)) (String (hex_digit (n mod 16)) EmptyString)
  else String c EmptyString.

Fixpoint escape (s : string) : string :=
  match s with
  | EmptyString => EmptyString
  | String c r => escape_char c ++ escape r
  end.

Definition quote (s : string) : string := Js.dq ++ escape s ++ Js.dq.

Fixpoint spaces (n : nat) : string :=
  match n with
  | O => EmptyString
  | S k => String " " (spaces k)
  end.

(** [JSON.stringify(v, null, 2)], [depth] levels deep. *)
Fixpoint stringify_at (depth : nat) (v : JValue) : string :=
  match v with
  | JNull => "null"
  | JBool true => "true"
  | JBool false => "false"
  | JNum n => Js.ofZ n
  | JStr s => quote s
  | JArr [] => "[]"
  | JArr items =>
      "[" ++ Js.nl
      ++ Js.join ("," ++ Js.nl)
           (map (fun x => spaces (2 * S depth) ++ stringify_at (S depth) x) items)
      ++ Js.nl ++ spaces (2 * depth) ++ "]"
  | JObj [] => "{}"
  | JObj members =>
      "{" ++ Js.nl
      ++ Js.join ("," ++ Js.nl)
           (map (fun kv => spaces (2 * S depth) ++ quote (fst kv) ++ ": "
                           ++ stringify_at (S depth) (snd kv)) members)
      ++ Js.nl ++ spaces (2 * depth) ++ "}"
  end.

Definition stringify (v : JValue) : string := stringify_at 0 v.

(** Building an object literal: a property whose value is [undefined] is
    left out by [JSON.stringify]. *)
Definition member {A : Type} (key : string) (enc : A -> JValue) (o : option A)
  : list (string * JValue) :=
  match o with
  | Some a => [(key, enc a)]
  | None => []
  end.

Definition strings (l : list string) : JValue := JArr (map JStr l).

End Json.

Export Json.

(** ** The platform *)

(** A [Date] object that is not [Invalid Date]: its time value and its
    year and month (from 0) in local time. *)
Record JsDate : Type := {
  getTime : Z;
  getFullYear : Z;
  getMonth : Z
}.

Record Host : Type := {
  (** [new Date(s)]; [None] is [Invalid Date]. *)
  newDate : string -> option JsDate;
  (** the time value of [new Date()] after [setFullYear(getFullYear() - 1)] *)
  oneYearAgo : Z;
  (** whether [new URL(s)] succeeds, as [z.string().url()] asks *)
  isUrl : string -> bool;
  (** [JSON.parse(s)]; [None] when it throws *)
  JSON_parse : string -> option JValue
}.

(** ** The data model *)

Inductive Status : Type := Completed | InProgress | Archived.

Definition statusText (s : Status) : string :=
  match s with
  | Completed => "Completed"
  | InProgress => "In Progress"
  | Archived => "Archived"
  end.

Module Repo.

Record RepoInfo : Type := {
  name : string;
  fullName : string;
  description : option string;
  url : string;
  homepage : option string;
  topics : list string;
  language : option string;
  archived : bool;
  pushedAt : string;
  defaultBranch : string
}.

End Repo.

Export Repo.

Inductive GameType : Type := UnityWebgl | Itch.

Record Game : Type := {
  game_type : GameType;
  game_url : string
}.

Record Media : Type := {
  video : option string;
  website : option string;
  pdf : option string;
  game : option Game
}.

Record Links : Type := {
  liveDemo : option string;
  docs : option string
}.

(** [PortfolioConfig], the type inferred from [portfolioConfigSchema]:
    an optional member that is absent is [None]. *)
Record PortfolioConfig : Type := {
  cfg_name : string;
  cfg_shortDescription : option string;
  cfg_description : option string;
  cfg_category : option string;
  cfg_technologies : option (list string);
  cfg_status : option Status;
  cfg_dateCompleted : option string;
  cfg_models : option (list string);
  cfg_images : option (list string);
  cfg_thumbnail : option string;
  cfg_media : option Media;
  cfg_links : option Links;
  cfg_featured : option bool;
  cfg_exclude : option bool
}.

(** The descriptor source: file contents and the flat file listing of a
    repository, both already reduced to "absent" on any failure. *)
Record Source : Type := {
  (** [getFileContent(client, repo, path)] *)
  getFileContent : string -> string -> option string;
  (** [getRepoTree(client, repo, branch)] *)
  getRepoTree : string -> string -> list string
}.

(** ** The schema and [validateConfig] (src/schema.ts) *)

Module Schema.

(** A zod issue: where, and the message. An array index in a path is
    written in decimal, as [path.join(".")] renders it. *)
Record Issue : Type := {
  path : list string;
  message : string
}.

(** The outcome of parsing one value: the issues raised, in order, and the
    typed value when there is none. *)
Definition V (A : Type) : Type := (list Issue * option A)%type.

Definition ok {A : Type} (a : A) : V A := ([], Some a).

Definition fail {A : Type} (p : list string) (msg : string) : V A :=
  ([{| path := p; message := msg |}], None).

Definition vmap {A B : Type} (f : A -> B) (x : V A) : V B :=
  (fst x, option_map f (snd x)).

(** Members of an object are parsed one after the other and every issue is
    kept. *)
Definition ap {A B : Type} (f : V (A -> B)) (x : V A) : V B :=
  ((fst f ++ fst x)%list,
   match snd f, snd x with
   | Some g, Some a => Some (g a)
   | _, _ => None
   end).

Notation "f <*> x" := (ap f x) (at level 61, left associativity).

Definition typeName (v : JValue) : string :=
  match v with
  | JNull => "null"
  | JBool _ => "boolean"
  | JNum _ => "number"
  | JStr _ => "string"
  | JArr _ => "array"
  | JObj _ => "object"
  end.

(** The messages of the library's own issues are those of zod 3; the
    message of the [dateCompleted] pattern is the one the schema gives. *)
Definition invalid_type {A : Type} (p : list string) (expected : string) (v : JValue) : V A :=
  fail p ("Expected " ++ expected ++ ", received " ++ typeName v).

(** [z.string()] *)
Definition string_ (p : list string) (v : JValue) : V string :=
  match v with
  | JStr s => ok s
  | _ => invalid_type p "string" v
  end.

(** [z.string().min(1)] *)
Definition string_min1 (p : list string) (v : JValue) : V string :=
  match v with
  | JStr s =>
      if s =? "" then fail p "String must contain at least 1 character(s)"
      else ok s
  | _ => invalid_type p "string" v
  end.

(** [z.string().regex(/^\d{4}-\d{2}$/, "Must be YYYY-MM format")] *)
Definition string_yearMonth (p : list string) (v : JValue) : V string :=
  match v with
  | JStr s => if Js.matchesYearMonth s then ok s else fail p "Must be YYYY-MM format"
  | _ => invalid_type p "string" v
  end.

(** [z.string().url()] *)
Definition string_url (h : Host) (p : list string) (v : JValue) : V string :=
  match v with
  | JStr s => if isUrl h s then ok s else fail p "Invalid url"
  | _ => invalid_type p "string" v
  end.

(** [z.boolean()] *)
Definition boolean_ (p : list string) (v : JValue) : V bool :=
  match v with
  | JBool b => ok b
  | _ => invalid_type p "boolean" v
  end.

Fixpoint array_from (i : nat) (p : list string) (items : list JValue) : V (list string) :=
  match items with
  | [] => ok []
  | x :: r =>
      ok (@cons string)
      <*> string_ (p ++ [Js.ofZ (Z.of_nat i)])%list x
      <*> array_from (S i) p r
  end.

(** [z.array(z.string())] *)
Definition array_string (p : list string) (v : JValue) : V (list string) :=
  match v with
  | JArr items => array_from 0 p items
  | _ => invalid_type p "array" v
  end.

(** [z.enum(["Completed", "In Progress", "Archived"])] *)
Definition enum_status (p : list string) (v : JValue) : V Status :=
  let options := "'Completed' | 'In Progress' | 'Archived'" in
  match v with
  | JStr s =>
      if s =? "Completed" then ok Completed
      else if s =? "In Progress" then ok InProgress
      else if s =? "Archived" then ok Archived
      else fail p ("Invalid enum value. Expected " ++ options ++ ", received '" ++ s ++ "'")
  | _ => invalid_type p options v
  end.

(** [z.enum(["unity-webgl", "itch"])] *)
Definition enum_gameType (p : list string) (v : JValue) : V GameType :=
  let options := "'unity-webgl' | 'itch'" in
  match v with
  | JStr s =>
      if s =? "unity-webgl" then ok UnityWebgl
      else if s =? "itch" then ok Itch
      else fail p ("Invalid enum value. Expected " ++ options ++ ", received '" ++ s ++ "'")
  | _ => invalid_type p options v
  end.

(** A member that must be there: [undefined] is reported as "Required". *)
Definition required {A : Type} (parse : list string -> JValue -> V A)
    (p : list string) (key : string) (members : list (string * JValue)) : V A :=
  match Json.get key members with
  | Some v => parse (p ++ [key])%list v
  | None => fail (p ++ [key])%list "Required"
  end.

(** [.optional()] *)
Definition optional {A : Type} (parse : list string -> JValue -> V A)
    (p : list string) (key : string) (members : list (string * JValue)) : V (option A) :=
  match Json.get key members with
  | Some v => vmap (@Some A) (parse (p ++ [key])%list v)
  | None => ok None
  end.

(** [gameSchema] *)
Definition gameSchema (h : Host) (p : list string) (v : JValue) : V Game :=
  match v with
  | JObj m =>
      ok Build_Game
      <*> required enum_gameType p "type" m
      <*> required (string_url h) p "url" m
  | _ => invalid_type p "object" v
  end.

(** [mediaSchema] *)
Definition mediaSchema (h : Host) (p : list string) (v : JValue) : V Media :=
  match v with
  | JObj m =>
      ok Build_Media
      <*> optional (string_url h) p "video" m
      <*> optional (string_url h) p "website" m
      <*> optional string_ p "pdf" m
      <*> optional (gameSchema h) p "game" m
  | _ => invalid_type p "object" v
  end.

(** [linksSchema] *)
Definition linksSchema (h : Host) (p : list string) (v : JValue) : V Links :=
  match v with
  | JObj m =>
      ok Build_Links
      <*> optional (string_url h) p "liveDemo" m
      <*> optional (string_url h) p "docs" m
  | _ => invalid_type p "object" v
  end.

(** [portfolioConfigSchema]: the members in the order of the schema. *)
Definition portfolioConfigSchema (h : Host) (v : JValue) : V PortfolioConfig :=
  match v with
  | JObj m =>
      ok Build_PortfolioConfig
      <*> required string_min1 [] "name" m
      <*> optional string_ [] "shortDescription" m
      <*> optional string_ [] "description" m
      <*> optional string_ [] "category" m
      <*> optional array_string [] "technologies" m
      <*> optional enum_status [] "status" m
      <*> optional string_yearMonth [] "dateCompleted" m
      <*> optional array_string [] "models" m
      <*> optional array_string [] "images" m
      <*> optional string_ [] "thumbnail" m
      <*> optional (mediaSchema h) [] "media" m
      <*> optional (linksSchema h) [] "links" m
      <*> optional boolean_ [] "featured" m
      <*> optional boolean_ [] "exclude" m
  | _ => invalid_type [] "object" v
  end.

Inductive Result : Type :=
| Success (data : PortfolioConfig)
| Failure (errors : list string).

Definition renderIssue (i : Issue) : string :=
  Js.join "." (path i) ++ ": " ++ message i.

(** [validateConfig(data)] *)
Definition validateConfig (h : Host) (data : JValue) : Result :=
  match portfolioConfigSchema h data with
  | ([], Some cfg) => Success cfg
  | (issues, _) => Failure (map renderIssue issues)
  end.

End Schema.

(** ** Inference shared by the aggregators *)

(** [repo.name.replace(/[-_]/g, " ").replace(/\b\w/g, c => c.toUpperCase())] *)
Module Naming.

Definition is_word (c : ascii) : bool :=
  let n := nat_of_ascii c in
  ((48 <=? n)%nat && (n <=? 57)%nat) || ((65 <=? n)%nat && (n <=? 90)%nat)
  || ((97 <=? n)%nat && (n <=? 122)%nat) || (n =? 95)%nat.

Fixpoint dashesToSpaces (s : string) : string :=
  match s with
  | EmptyString => EmptyString
  | String c r =>
      String (if Ascii.eqb c "-" || Ascii.eqb c "_" then " "%char else c) (dashesToSpaces r)
  end.

(** [prevWord]: the character before is a word character. *)
Fixpoint capitalizeFrom (prevWord : bool) (s : string) : string :=
  match s with
  | EmptyString => EmptyString
  | String c r =>
      String (if is_word c && negb prevWord then Js.upper_ascii c else c)
             (capitalizeFrom (is_word c) r)
  end.

Definition cleanRepoName (dirName : string) : string :=
  capitalizeFrom false (dashesToSpaces dirName).

End Naming.

(** ** [Array.prototype.sort] *)

Module JsArray.

Section Sort.

Variable A : Type.

(** The comparator's result by its sign: [Lt] negative, [Gt] positive. *)
Variable compareFn : A -> A -> comparison.

(** [x] is put before the first element it does not come after. *)
Fixpoint insert (x : A) (l : list A) : list A :=
  match l with
  | [] => [x]
  | y :: r =>
      match compareFn x y with
      | Gt => y :: insert x r
      | _ => x :: l
      end
  end.

(** [arr.sort(compareFn)].  The language fixes the result for a consistent
    comparator: the stable arrangement of the elements in its order; an
    insertion from the right computes it. *)
Fixpoint sort (l : list A) : list A :=
  match l with
  | [] => []
  | x :: r => insert x (sort r)
  end.

End Sort.

End JsArray.

(** ** The command-line aggregator (src/generate.ts) *)

Module Cli.

Inductive OutputFormat : Type := json | yaml | markdown.

(** The object [processRepo] returns.  On the override path it is the
    spread of the validated document, so [thumbnail] and [exclude] travel
    with it.  The order of the members of the JavaScript object is not
    tracked. *)
Record PortfolioEntry : Type := {
  e_name : string;
  shortDescription : option string;
  description : option string;
  category : option string;
  technologies : option (list string);
  status : option Status;
  dateCompleted : option string;
  models : option (list string);
  images : option (list string);
  thumbnail : option string;
  media : option Media;
  links : option Links;
  featured : option bool;
  exclude : option bool;
  github : string
}.

Definition MODEL_EXTS : list string := [".stl"; ".gltf"; ".glb"; ".obj"; ".fbx"; ".3mf"].
Definition IMAGE_EXTS : list string := [".png"; ".jpg"; ".jpeg"; ".gif"; ".webp"; ".svg"].
Definition IMAGE_DIRS : list string := ["docs/"; "assets/"; "images/"; "screenshots/"; "media/"].

Definition topicMap : list (string * string) :=
  [ ("react", "React"); ("nextjs", "Next.js"); ("vue", "Vue"); ("angular", "Angular");
    ("svelte", "Svelte"); ("typescript", "TypeScript"); ("python", "Python");
    ("rust", "Rust"); ("go", "Go"); ("machine-learning", "Machine Learning");
    ("three-js", "Three.js"); ("threejs", "Three.js"); ("tailwindcss", "Tailwind CSS");
    ("docker", "Docker"); ("kubernetes", "Kubernetes"); ("graphql", "GraphQL");
    ("tensorflow", "TensorFlow"); ("pytorch", "PyTorch") ].

(** [table[key]] on an object literal used as a lookup table, read on the
    keys the literal declares.  A key that names a member inherited from
    [Object.prototype] ([constructor] is the one a topic can spell) yields
    that member in the code, a function and not a label; such keys are
    outside the model, whose labels are strings. *)
Fixpoint lookup (key : string) (table : list (string * string)) : option string :=
  match table with
  | [] => None
  | (k, v) :: rest => if k =? key then Some v else lookup key rest
  end.

Definition topicTechs (table : list (string * string)) (topics : list string) : list string :=
  flat_map (fun topic =>
              match lookup topic table with
              | Some label => [label]
              | None => []
              end) topics.

Definition inferTechFromLanguage (lang : option string) (topics : list string) : list string :=
  let techs := ((if Js.truthy lang then match lang with Some l => [l] | None => [] end else [])
                ++ topicTechs topicMap topics)%list in
  Js.uniq techs.

Definition has (t : list string) (x : string) : bool := Js.mem x t.

Definition languageCategory (lang : option string) : string :=
  if match lang with Some l => l =? "C#" | None => false end then "Game Development"
  else if match lang with Some l => l =? "Rust" | None => false end then "Systems Programming"
  else if match lang with Some l => l =? "Go" | None => false end then "Backend/API"
  else if match lang with Some l => l =? "Python" | None => false end then "Python"
  else "Software".

Definition inferCategoryFromTopics (t : list string) (lang : option string) : string :=
  if has t "game" || has t "gamedev" || has t "unity" || has t "unreal"
  then "Game Development"
  else if has t "machine-learning" || has t "deep-learning" || has t "ai"
  then "Machine Learning"
  else if has t "robotics" || has t "arduino" || has t "embedded"
  then "Robotics"
  else if has t "three-js" || has t "threejs" || has t "webgl" || has t "3d"
  then "Web 3D"
  else if has t "react" || has t "vue" || has t "angular" || has t "nextjs" || has t "webapp"
  then "Web App"
  else if has t "api" || has t "backend" || has t "server"
  then "Backend/API"
  else if has t "mobile" || has t "react-native" || has t "flutter"
  then "Mobile App"
  else if has t "cli" || has t "tool" then "CLI Tool"
  else languageCategory lang.

(** [pushed < oneYearAgo]: false when [pushed] is [Invalid Date]. *)
Definition olderThan (h : Host) (d : option JsDate) : bool :=
  match d with
  | Some d => (getTime d <? oneYearAgo h)%Z
  | None => false
  end.

Definition inferStatus (h : Host) (repo : RepoInfo) : Status :=
  if archived repo then Archived
  else if olderThan h (newDate h (pushedAt repo)) then Archived else Completed.

Definition toYearMonth (h : Host) (dateStr : string) : string :=
  match newDate h dateStr with
  | None => ""
  | Some d => Js.ofZ (getFullYear d) ++ "-" ++ Js.padStart2 (Js.ofZ (getMonth d + 1))
  end.

(** ["." + file.split(".").pop()?.toLowerCase()] *)
Definition extOf (file : string) : string :=
  "." ++ match Js.pop (Js.split "." file) with
         | Some last => Js.toLowerCase last
         | None => "undefined"
         end.

Definition isModel (file : string) : bool := Js.mem (extOf file) MODEL_EXTS.

Definition isImage (file : string) : bool :=
  Js.mem (extOf file) IMAGE_EXTS && existsb (fun d => Js.startsWith file d) IMAGE_DIRS.

(** [findAssetsInTree(files)]: the pair [(models, images)]. *)
Definition findAssetsInTree (files : list string) : list string * list string :=
  (filter isModel files, filter isImage files).

(** The loop of [processRepo] over the lines of the README. *)
Fixpoint collectParagraphs (pastTitle : bool) (paragraphs : list string)
    (lines : list string) : list string :=
  match lines with
  | [] => paragraphs
  | line :: rest =>
      let trimmed := Js.trim line in
      if Js.startsWith trimmed "#" then
        if pastTitle && negb (length paragraphs =? 0)%nat then paragraphs
        else collectParagraphs true paragraphs rest
      else if (trimmed =? "") || Js.startsWith trimmed "[![" || Js.startsWith trimmed "<"
      then collectParagraphs pastTitle paragraphs rest
      else
        let paragraphs' := if pastTitle then (paragraphs ++ [trimmed])%list else paragraphs in
        if (3 <=? length paragraphs')%nat then paragraphs'
        else collectParagraphs pastTitle paragraphs' rest
  end.

(** The README part of [processRepo]: [(shortDescription, description)]. *)
Definition describe (repoDescription : option string) (readmeRaw : option string)
    : option string * option string :=
  let description := Js.or_else repoDescription None in
  let shortDescription := description in
  if Js.truthy readmeRaw then
    let raw := match readmeRaw with Some r => r | None => "" end in
    let paragraphs := collectParagraphs false [] (Js.split "010" raw) in
    match paragraphs with
    | [] => (shortDescription, description)
    | _ =>
        let readme := Js.join " " paragraphs in
        let description' :=
          match description with
          | Some d => if (String.length d <? String.length readme)%nat
                      then Some readme else description
          | None => Some readme
          end in
        let shortDescription' :=
          match shortDescription with
          | Some _ => shortDescription
          | None =>
              match Js.matchSentence readme with
              | Some m => Some (Js.trim m)
              | None => Some (Js.slice0 120 readme)
              end
          end in
        (shortDescription', description')
    end
  else (shortDescription, description).

Definition nonEmpty (l : list string) : option (list string) :=
  match l with
  | [] => None
  | _ => Some l
  end.

(** The auto-detection part of [processRepo]. *)
Definition autoDetect (h : Host) (src : Source) (repo : RepoInfo) : PortfolioEntry :=
  let readmeRaw := getFileContent src (name repo) "README.md" in
  let '(shortDescription, description) := describe (Repo.description repo) readmeRaw in
  let tree := getRepoTree src (name repo) (defaultBranch repo) in
  let '(models, images) := findAssetsInTree tree in
  {| e_name := Naming.cleanRepoName (name repo);
     shortDescription := shortDescription;
     description := description;
     category := Some (inferCategoryFromTopics (topics repo) (language repo));
     technologies := Some (inferTechFromLanguage (language repo) (topics repo));
     status := Some (inferStatus h repo);
     dateCompleted := Some (toYearMonth h (pushedAt repo));
     models := nonEmpty models;
     images := nonEmpty images;
     thumbnail := None;
     media := None;
     links := if Js.truthy (homepage repo)
              then Some {| liveDemo := homepage repo; docs := None |} else None;
     featured := None;
     exclude := None;
     github := url repo |}.

(** The object built from a validated override:
    [{...result.data, github, technologies: .. || .., category: .. || ..,
      status: .. || ..}]. *)
Definition fromConfig (h : Host) (repo : RepoInfo) (data : PortfolioConfig) : PortfolioEntry :=
  {| e_name := cfg_name data;
     shortDescription := cfg_shortDescription data;
     description := cfg_description data;
     category :=
       if Js.truthy (cfg_category data) then cfg_category data
       else Some (inferCategoryFromTopics (topics repo) (language repo));
     technologies :=
       match cfg_technologies data with
       | Some ts => Some ts
       | None => Some (inferTechFromLanguage (language repo) (topics repo))
       end;
     status :=
       match cfg_status data with
       | Some s => Some s
       | None => Some (inferStatus h repo)
       end;
     dateCompleted := cfg_dateCompleted data;
     models := cfg_models data;
     images := cfg_images data;
     thumbnail := cfg_thumbnail data;
     media := cfg_media data;
     links := cfg_links data;
     featured := cfg_featured data;
     exclude := cfg_exclude data;
     github := url repo |}.

(** [processRepo(client, repo)].  Its result type allows [null]. *)
Definition processRepo (h : Host) (src : Source) (repo : RepoInfo) : option PortfolioEntry :=
  let configRaw := getFileContent src (name repo) ".portfolio.json" in
  let fallback := Some (autoDetect h src repo) in
  if Js.truthy configRaw then
    match configRaw with
    | Some raw =>
        match JSON_parse h raw with
        | Some parsed =>
            match Schema.validateConfig h parsed with
            | Schema.Success data => Some (fromConfig h repo data)
            | Schema.Failure _ => fallback
            end
        | None => fallback
        end
    | None => fallback
    end
  else fallback.

Definition mediaJson (m : Media) : JValue :=
  JObj (List.concat
    [ Json.member "video" JStr (video m);
      Json.member "website" JStr (website m);
      Json.member "pdf" JStr (pdf m);
      Json.member "game"
              (fun g => JObj [("type", JStr (match game_type g with
                                             | UnityWebgl => "unity-webgl"
                                             | Itch => "itch"
                                             end));
                              ("url", JStr (game_url g))])
              (game m) ]).

Definition linksJson (l : Links) : JValue :=
  JObj (List.concat
    [ Json.member "liveDemo" JStr (liveDemo l);
      Json.member "docs" JStr (docs l) ]).

(** The entry as [JSON.stringify] sees it: the members that are defined.
    They are listed here in one fixed order; JavaScript lists them in the
    order of their insertion, which differs between the two paths of
    [processRepo]. *)
Definition entryMembers (e : PortfolioEntry) : list (string * JValue) :=
  List.concat
    [ [("name", JStr (e_name e))];
      Json.member "shortDescription" JStr (shortDescription e);
      Json.member "description" JStr (description e);
      Json.member "category" JStr (category e);
      Json.member "technologies" Json.strings (technologies e);
      Json.member "status" (fun s => JStr (statusText s)) (status e);
      Json.member "dateCompleted" JStr (dateCompleted e);
      Json.member "models" Json.strings (models e);
      Json.member "images" Json.strings (images e);
      Json.member "thumbnail" JStr (thumbnail e);
      Json.member "media" mediaJson (media e);
      Json.member "links" linksJson (links e);
      Json.member "featured" JBool (featured e);
      Json.member "exclude" JBool (exclude e);
      [("github", JStr (github e))] ].

Definition projectsJson (entries : list PortfolioEntry) : JValue :=
  JObj [("projects", JArr (map (fun e => JObj (entryMembers e)) entries))].

Definition whenText (o : option string) (render : string -> string) : list string :=
  if Js.truthy o then match o with Some s => [render s] | None => [] end else [].

(** [xs?.length] as a condition *)
Definition hasItems (o : option (list string)) : bool :=
  match o with
  | Some (_ :: _) => true
  | _ => false
  end.

Definition items (o : option (list string)) : list string :=
  match o with
  | Some l => l
  | None => []
  end.

Definition isFeatured (e : PortfolioEntry) : bool :=
  match featured e with
  | Some true => true
  | _ => false
  end.

Definition liveDemoOf (e : PortfolioEntry) : option string :=
  match links e with
  | Some l => liveDemo l
  | None => None
  end.

Definition videoOf (e : PortfolioEntry) : option string :=
  match media e with
  | Some m => video m
  | None => None
  end.

Definition yamlBlock (entry : PortfolioEntry) : list string :=
  List.concat
    [ ["  - name: " ++ Js.dq ++ e_name entry ++ Js.dq];
      whenText (shortDescription entry)
         (fun s => "    shortDescription: " ++ Js.dq ++ s ++ Js.dq);
      whenText (description entry) (fun s => "    description: " ++ Js.dq ++ s ++ Js.dq);
      whenText (category entry) (fun s => "    category: " ++ s);
      (if hasItems (technologies entry)
        then ["    technologies: [" ++ Js.join ", " (items (technologies entry)) ++ "]"]
        else []);
      whenText (option_map statusText (status entry)) (fun s => "    status: " ++ s);
      whenText (dateCompleted entry) (fun s => "    dateCompleted: " ++ s);
      ["    github: " ++ github entry];
      (if isFeatured entry then ["    featured: true"] else []);
      (if hasItems (models entry)
        then "    models:" :: map (fun m => "      - " ++ m) (items (models entry))
        else []);
      (if hasItems (images entry)
        then "    images:" :: map (fun i => "      - " ++ i) (items (images entry))
        else []);
      whenText (liveDemoOf entry) (fun s => "    liveDemo: " ++ s);
      whenText (videoOf entry) (fun s => "    video: " ++ s);
      [""] ].

Definition toYaml (entries : list PortfolioEntry) : string :=
  Js.join Js.nl ("projects:" :: flat_map yamlBlock entries).

(** The [Map] from category to its projects, in insertion order. *)
Fixpoint addToCategory (cat : string) (e : PortfolioEntry)
    (categories : list (string * list PortfolioEntry)) : list (string * list PortfolioEntry) :=
  match categories with
  | [] => [(cat, [e])]
  | (c, projects) :: rest =>
      if c =? cat then (c, (projects ++ [e])%list) :: rest
      else (c, projects) :: addToCategory cat e rest
  end.

Definition categoryOf (e : PortfolioEntry) : string :=
  if Js.truthy (category e) then match category e with Some c => c | None => "Other" end
  else "Other".

Definition groupByCategory (entries : list PortfolioEntry) : list (string * list PortfolioEntry) :=
  fold_left (fun categories e => addToCategory (categoryOf e) e categories) entries [].

Definition countText (n : nat) : string := Js.ofZ (Z.of_nat n).

Definition markdownProject (p : PortfolioEntry) : list string :=
  List.concat
    [ ["### " ++ e_name p ++ (if isFeatured p then " ⭐" else "") ++ Js.nl];
      whenText (shortDescription p) (fun s => s ++ Js.nl);
      (if hasItems (technologies p)
        then ["- **Tech:** " ++ Js.join ", " (items (technologies p))] else []);
      whenText (option_map statusText (status p)) (fun s => "- **Status:** " ++ s);
      whenText (dateCompleted p) (fun s => "- **Date:** " ++ s);
      ["- **GitHub:** " ++ github p];
      whenText (liveDemoOf p) (fun s => "- **Live:** " ++ s);
      whenText (videoOf p) (fun s => "- **Video:** " ++ s);
      (if hasItems (models p)
        then ["- **3D Models:** " ++ countText (length (items (models p))) ++ " file(s)"]
        else []);
      (if hasItems (images p)
        then ["- **Images:** " ++ countText (length (items (images p))) ++ " file(s)"]
        else []);
      (if Js.truthy (description p)
           && negb (match description p, shortDescription p with
                    | Some d, Some s => d =? s
                    | _, _ => false
                    end)
        then [Js.nl ++ match description p with Some d => d | None => "" end]
        else []);
      [""] ].

Definition toMarkdown (entries : list PortfolioEntry) : string :=
  Js.join Js.nl
    (("# Portfolio — " ++ countText (length entries) ++ " projects" ++ Js.nl)
     :: flat_map (fun g => ("## " ++ fst g ++ Js.nl) :: flat_map markdownProject (snd g))
          (groupByCategory entries)).

Definition formatOutput (entries : list PortfolioEntry) (format : OutputFormat) : string :=
  match format with
  | yaml => toYaml entries
  | markdown => toMarkdown entries
  | json => Json.stringify (projectsJson entries)
  end.

Definition dateKey (e : PortfolioEntry) : string :=
  if Js.truthy (dateCompleted e)
  then match dateCompleted e with Some d => d | None => "" end
  else "".

(** The comparator of the sort: featured first, then by date. *)
Definition compareEntries (a b : PortfolioEntry) : comparison :=
  if isFeatured a && negb (isFeatured b) then Lt
  else if negb (isFeatured a) && isFeatured b then Gt
  else Js.localeCompare (dateKey b) (dateKey a).

Definition sortEntries (entries : list PortfolioEntry) : list PortfolioEntry :=
  JsArray.sort compareEntries entries.

Fixpoint keepSome (l : list (option PortfolioEntry)) : list PortfolioEntry :=
  match l with
  | [] => []
  | Some e :: r => e :: keepSome r
  | None :: r => keepSome r
  end.

(** The entries [generate] hands to the formatter: the repositories not
    named in [--exclude] and not starting with a dot, processed one by one,
    then sorted. *)
Definition generateEntries (h : Host) (src : Source) (repos : list RepoInfo)
    (excludeNames : list string) : list PortfolioEntry :=
  let filtered :=
    filter (fun r => negb (Js.mem (name r) excludeNames) && negb (Js.startsWith (name r) "."))
           repos in
  sortEntries (keepSome (map (processRepo h src) filtered)).

(** [generate(options)]: the text of the combined document. *)
Definition generate (h : Host) (src : Source) (repos : list RepoInfo)
    (excludeNames : list string) (format : OutputFormat) : string :=
  formatOutput (generateEntries h src repos excludeNames) format.

End Cli.

(** ** The browser variant (web/src/lib/portfolio.ts, and the page's scan) *)

Module Web.

Inductive OutputFormat : Type := json | yaml | markdown.

Record PortfolioEntry : Type := {
  e_name : string;
  shortDescription : option string;
  description : option string;
  category : option string;
  technologies : option (list string);
  status : option Status;
  dateCompleted : option string;
  models : option (list string);
  images : option (list string);
  featured : option bool;
  github : string;
  links : option Links;
  media : option Media;
  (** the UI toggle *)
  enabled : bool
}.

Definition TOPIC_MAP : list (string * string) :=
  [ ("react", "React"); ("nextjs", "Next.js"); ("vue", "Vue"); ("angular", "Angular");
    ("svelte", "Svelte"); ("typescript", "TypeScript"); ("python", "Python");
    ("rust", "Rust"); ("go", "Go"); ("machine-learning", "Machine Learning");
    ("three-js", "Three.js"); ("threejs", "Three.js"); ("tailwindcss", "Tailwind CSS");
    ("docker", "Docker"); ("kubernetes", "Kubernetes"); ("graphql", "GraphQL");
    ("tensorflow", "TensorFlow"); ("pytorch", "PyTorch") ].

Definition inferTech (lang : option string) (topics : list string) : list string :=
  let techs := ((if Js.truthy lang then match lang with Some l => [l] | None => [] end else [])
                ++ Cli.topicTechs TOPIC_MAP topics)%list in
  Js.uniq techs.

Definition has (t : list string) (x : string) : bool := Js.mem x t.

Definition inferCategory (t : list string) (lang : option string) : string :=
  if has t "game" || has t "gamedev" || has t "unity" then "Game Development"
  else if has t "machine-learning" || has t "deep-learning" || has t "ai"
  then "Machine Learning"
  else if has t "robotics" || has t "arduino" || has t "embedded" then "Robotics"
  else if has t "three-js" || has t "threejs" || has t "webgl" || has t "3d" then "Web 3D"
  else if has t "react" || has t "vue" || has t "angular" || has t "nextjs" then "Web App"
  else if has t "api" || has t "backend" || has t "server" then "Backend/API"
  else if has t "mobile" || has t "react-native" || has t "flutter" then "Mobile App"
  else if has t "cli" || has t "tool" then "CLI Tool"
  else Cli.languageCategory lang.

Definition inferStatus (h : Host) (repo : RepoInfo) : Status :=
  if archived repo then Archived
  else if Cli.olderThan h (newDate h (pushedAt repo)) then Archived else Completed.

Definition toYearMonth (h : Host) (dateStr : string) : string :=
  match newDate h dateStr with
  | None => ""
  | Some d => Js.ofZ (getFullYear d) ++ "-" ++ Js.padStart2 (Js.ofZ (getMonth d + 1))
  end.

Definition MODEL_EXTS : list string := [".stl"; ".gltf"; ".glb"; ".obj"; ".fbx"; ".3mf"].
Definition IMAGE_EXTS : list string := [".png"; ".jpg"; ".jpeg"; ".gif"; ".webp"; ".svg"].
Definition IMAGE_DIRS : list string := ["docs/"; "assets/"; "images/"; "screenshots/"; "media/"].

(** [MODEL_EXTS.some((e) => f.endsWith(e))] *)
Definition isModel (f : string) : bool := existsb (fun e => Js.endsWith f e) MODEL_EXTS.

Definition isImage (f : string) : bool :=
  existsb (fun e => Js.endsWith f e) IMAGE_EXTS
  && existsb (fun d => Js.startsWith f d) IMAGE_DIRS.

(** The loop over the README lines; a heading never ends it here. *)
Fixpoint collectParagraphs (pastTitle : bool) (paragraphs : list string)
    (lines : list string) : list string :=
  match lines with
  | [] => paragraphs
  | line :: rest =>
      let trimmed := Js.trim line in
      if Js.startsWith trimmed "#" then collectParagraphs true paragraphs rest
      else if (trimmed =? "") || Js.startsWith trimmed "[![" || Js.startsWith trimmed "<"
      then collectParagraphs pastTitle paragraphs rest
      else
        let paragraphs' := if pastTitle then (paragraphs ++ [trimmed])%list else paragraphs in
        if (3 <=? length paragraphs')%nat then paragraphs'
        else collectParagraphs pastTitle paragraphs' rest
  end.

Definition describe (repoDescription : option string) (readmeRaw : option string)
    : option string * option string :=
  let description := Js.or_else repoDescription None in
  let shortDescription := description in
  if Js.truthy readmeRaw then
    let raw := match readmeRaw with Some r => r | None => "" end in
    let paragraphs := collectParagraphs false [] (Js.split "010" raw) in
    match paragraphs with
    | [] => (shortDescription, description)
    | _ =>
        let readme := Js.join " " paragraphs in
        let description' :=
          match description with
          | Some d => if (String.length d <? String.length readme)%nat
                      then Some readme else description
          | None => Some readme
          end in
        let shortDescription' :=
          match shortDescription with
          | Some _ => shortDescription
          | None =>
              match Js.matchSentence readme with
              | Some m => Some (Js.trim m)
              | None => Some (Js.slice0 120 readme)
              end
          end in
        (shortDescription', description')
    end
  else (shortDescription, description).

Definition homepageLinks (repo : RepoInfo) : option Links :=
  if Js.truthy (homepage repo)
  then Some {| liveDemo := homepage repo; docs := None |} else None.

(** The entry built from the override document, read at the type of the
    schema. *)
Definition fromConfig (h : Host) (repo : RepoInfo) (config : PortfolioConfig) : PortfolioEntry :=
  {| e_name := if cfg_name config =? "" then Naming.cleanRepoName (name repo)
               else cfg_name config;
     shortDescription := cfg_shortDescription config;
     description := Js.or_else (cfg_description config) (Js.or_else (Repo.description repo) None);
     category := Js.or_else (cfg_category config)
                   (Some (inferCategory (topics repo) (language repo)));
     technologies :=
       match cfg_technologies config with
       | Some ts => Some ts
       | None => Some (inferTech (language repo) (topics repo))
       end;
     status :=
       match cfg_status config with
       | Some s => Some s
       | None => Some (inferStatus h repo)
       end;
     dateCompleted := Js.or_else (cfg_dateCompleted config)
                        (Some (toYearMonth h (pushedAt repo)));
     featured := cfg_featured config;
     github := url repo;
     links := match cfg_links config with
              | Some l => Some l
              | None => homepageLinks repo
              end;
     media := cfg_media config;
     models := cfg_models config;
     images := cfg_images config;
     enabled := negb (match cfg_exclude config with Some true => true | _ => false end) |}.

Definition autoDetect (h : Host) (src : Source) (repo : RepoInfo) : PortfolioEntry :=
  let readmeRaw := getFileContent src (name repo) "README.md" in
  let '(shortDescription, description) := describe (Repo.description repo) readmeRaw in
  let tree := getRepoTree src (name repo) (defaultBranch repo) in
  let models := filter isModel tree in
  let images := filter isImage tree in
  {| e_name := Naming.cleanRepoName (name repo);
     shortDescription := shortDescription;
     description := description;
     category := Some (inferCategory (topics repo) (language repo));
     technologies := Some (inferTech (language repo) (topics repo));
     status := Some (inferStatus h repo);
     dateCompleted := Some (toYearMonth h (pushedAt repo));
     github := url repo;
     links := homepageLinks repo;
     models := Cli.nonEmpty models;
     images := Cli.nonEmpty images;
     featured := None;
     media := None;
     enabled := true |}.

(** What [processRepo] yields.  The browser variant reads the parsed
    document without validating it, whatever its members are; the model
    follows it on the documents [validateConfig] accepts, where every
    member read has the type of the schema, and says [OutOfModel] for the
    others. *)
Inductive Processed : Type :=
| Entry (e : PortfolioEntry)
| OutOfModel.

Definition processRepo (h : Host) (src : Source) (repo : RepoInfo) : Processed :=
  let configRaw := getFileContent src (name repo) ".portfolio.json" in
  let fallback := Entry (autoDetect h src repo) in
  if Js.truthy configRaw then
    match configRaw with
    | Some raw =>
        match JSON_parse h raw with
        | Some parsed =>
            match Schema.validateConfig h parsed with
            | Schema.Success config => Entry (fromConfig h repo config)
            | Schema.Failure _ => OutOfModel
            end
        | None => fallback
        end
    | None => fallback
    end
  else fallback.

Definition entryMembers (e : PortfolioEntry) : list (string * JValue) :=
  List.concat
    [ [("name", JStr (e_name e))];
      Json.member "shortDescription" JStr (shortDescription e);
      Json.member "description" JStr (description e);
      Json.member "category" JStr (category e);
      Json.member "technologies" Json.strings (technologies e);
      Json.member "status" (fun s => JStr (statusText s)) (status e);
      Json.member "dateCompleted" JStr (dateCompleted e);
      Json.member "featured" JBool (featured e);
      [("github", JStr (github e))];
      Json.member "links" Cli.linksJson (links e);
      Json.member "media" Cli.mediaJson (media e);
      Json.member "models" Json.strings (models e);
      Json.member "images" Json.strings (images e) ].

(** [toJson(entries)]: the entries without [enabled]. *)
Definition projectsJson (entries : list PortfolioEntry) : JValue :=
  JObj [("projects", JArr (map (fun e => JObj (entryMembers e)) entries))].

Definition toJson (entries : list PortfolioEntry) : string :=
  Json.stringify (projectsJson entries).

Definition isFeatured (e : PortfolioEntry) : bool :=
  match featured e with
  | Some true => true
  | _ => false
  end.

Definition liveDemoOf (e : PortfolioEntry) : option string :=
  match links e with
  | Some l => liveDemo l
  | None => None
  end.

Definition yamlBlock (e : PortfolioEntry) : list string :=
  List.concat
    [ ["  - name: " ++ Js.dq ++ e_name e ++ Js.dq];
      Cli.whenText (shortDescription e)
        (fun s => "    shortDescription: " ++ Js.dq ++ s ++ Js.dq);
      Cli.whenText (category e) (fun s => "    category: " ++ s);
      (if Cli.hasItems (technologies e)
       then ["    technologies: [" ++ Js.join ", " (Cli.items (technologies e)) ++ "]"]
       else []);
      Cli.whenText (option_map statusText (status e)) (fun s => "    status: " ++ s);
      Cli.whenText (dateCompleted e) (fun s => "    dateCompleted: " ++ s);
      ["    github: " ++ github e];
      (if isFeatured e then ["    featured: true"] else []);
      Cli.whenText (liveDemoOf e) (fun s => "    liveDemo: " ++ s);
      [""] ].

Definition toYaml (entries : list PortfolioEntry) : string :=
  Js.join Js.nl ("projects:" :: flat_map yamlBlock entries).

Fixpoint addToCategory (cat : string) (e : PortfolioEntry)
    (categories : list (string * list PortfolioEntry)) : list (string * list PortfolioEntry) :=
  match categories with
  | [] => [(cat, [e])]
  | (c, projects) :: rest =>
      if c =? cat then (c, (projects ++ [e])%list) :: rest
      else (c, projects) :: addToCategory cat e rest
  end.

Definition categoryOf (e : PortfolioEntry) : string :=
  if Js.truthy (category e) then match category e with Some c => c | None => "Other" end
  else "Other".

Definition groupByCategory (entries : list PortfolioEntry) : list (string * list PortfolioEntry) :=
  fold_left (fun categories e => addToCategory (categoryOf e) e categories) entries [].

Definition markdownProject (p : PortfolioEntry) : list string :=
  List.concat
    [ ["### " ++ e_name p ++ (if isFeatured p then " *" else "") ++ Js.nl];
      Cli.whenText (shortDescription p) (fun s => s ++ Js.nl);
      (if Cli.hasItems (technologies p)
       then ["- **Tech:** " ++ Js.join ", " (Cli.items (technologies p))] else []);
      Cli.whenText (option_map statusText (status p)) (fun s => "- **Status:** " ++ s);
      ["- **GitHub:** " ++ github p];
      Cli.whenText (liveDemoOf p) (fun s => "- **Live:** " ++ s);
      [""] ].

Definition toMarkdown (entries : list PortfolioEntry) : string :=
  Js.join Js.nl
    (("# Portfolio â€” " ++ Cli.countText (length entries) ++ " projects" ++ Js.nl)
     :: flat_map (fun g => ("## " ++ fst g ++ Js.nl) :: flat_map markdownProject (snd g))
          (groupByCategory entries)).

(** [formatEntries(entries, format)] *)
Definition formatEntries (entries : list PortfolioEntry) (format : OutputFormat) : string :=
  let enabledEntries := filter enabled entries in
  match format with
  | yaml => toYaml enabledEntries
  | markdown => toMarkdown enabledEntries
  | json => toJson enabledEntries
  end.

Definition dateKey (e : PortfolioEntry) : string :=
  if Js.truthy (dateCompleted e)
  then match dateCompleted e with Some d => d | None => "" end
  else "".

(** The comparator of the sort in [startScan]. *)
Definition compareEntries (a b : PortfolioEntry) : comparison :=
  if isFeatured a && negb (isFeatured b) then Lt
  else if negb (isFeatured a) && isFeatured b then Gt
  else Js.localeCompare (dateKey b) (dateKey a).

Definition sortEntries (entries : list PortfolioEntry) : list PortfolioEntry :=
  JsArray.sort compareEntries entries.

Fixpoint allEntries (l : list Processed) : option (list PortfolioEntry) :=
  match l with
  | [] => Some []
  | Entry e :: r => option_map (cons e) (allEntries r)
  | OutOfModel :: _ => None
  end.

(** [startScan]: every repository processed in turn, the results sorted;
    [None] when a repository is out of the model. *)
Definition startScan (h : Host) (src : Source) (repoList : list RepoInfo)
    : option (list PortfolioEntry) :=
  option_map sortEntries (allEntries (map (processRepo h src) repoList)).

End Web.

(** ** The README parser (src/detectors/readme-parser.ts) *)

Module Readme.

Record ReadmeResult : Type := {
  description : option string;
  shortDescription : option string
}.

Definition isBadge (line : string) : bool :=
  Js.startsWith line "[![" || (Js.startsWith line "![" && Js.includes line "badge").

Definition isHeading (line : string) : bool := Js.startsWith line "#".

Definition isHtml (line : string) : bool :=
  Js.startsWith line "<" && negb (Js.startsWith line "<a").

Definition isSkippable (line : string) : bool :=
  let trimmed := Js.trim line in
  (trimmed =? "") || isBadge trimmed || isHeading trimmed || isHtml trimmed.

(** [line.replace(/^#+\s*/, "")] *)
Fixpoint dropHashes (s : string) : string :=
  match s with
  | String "#" r => dropHashes r
  | _ => s
  end.

Definition headingText (line : string) : string :=
  Js.toLowerCase (Js.trim (Js.trimStart (dropHashes line))).

Fixpoint captureSection (headings : list string) (capturing : bool)
    (captured : list string) (lines : list string) : list string :=
  match lines with
  | [] => captured
  | line :: rest =>
      if isHeading line && Js.mem (headingText line) headings
      then captureSection headings true captured rest
      else if isHeading line && capturing then captured
      else
        let captured' :=
          if capturing && negb (Js.trim line =? "")
          then (captured ++ [Js.trim line])%list else captured in
        captureSection headings capturing captured' rest
  end.

Definition extractSection (content : string) (headings : list string) : option string :=
  match captureSection headings false [] (Js.split "010" content) with
  | [] => None
  | captured => Some (Js.join " " captured)
  end.

Fixpoint firstParagraph (pastTitle : bool) (paragraph : list string)
    (lines : list string) : list string :=
  match lines with
  | [] => paragraph
  | line :: rest =>
      if negb pastTitle && isHeading line then firstParagraph true paragraph rest
      else if negb pastTitle && isSkippable line then firstParagraph pastTitle paragraph rest
      else
        (* past the title from here on *)
        if isSkippable line then
          match paragraph with
          | [] => firstParagraph true paragraph rest
          | _ => paragraph
          end
        else firstParagraph true (paragraph ++ [Js.trim line])%list rest
  end.

Definition extractFirstParagraph (content : string) : option string :=
  match firstParagraph false [] (Js.split "010" content) with
  | [] => None
  | paragraph => Some (Js.join " " paragraph)
  end.

Definition firstSentence (text : string) (maxLen : nat) : string :=
  let sentence := match Js.matchSentence text with
                  | Some m => Js.trim m
                  | None => text
                  end in
  if (maxLen <? String.length sentence)%nat
  then Js.slice0 (maxLen - 3) sentence ++ "..."
  else sentence.

(** [parseReadme(dir)], from the text of the README that [findReadme] and
    [readFile] deliver; [None] when there is none or it cannot be read. *)
Definition parseReadme (content : option string) : ReadmeResult :=
  match content with
  | None => {| description := None; shortDescription := None |}
  | Some content =>
      let found :=
        match extractSection content ["description"; "about"; "overview"] with
        | Some d => if d =? "" then extractFirstParagraph content else Some d
        | None => extractFirstParagraph content
        end in
      match found with
      | Some d =>
          if d =? "" then {| description := None; shortDescription := None |}
          else {| description := Some d; shortDescription := Some (firstSentence d 120) |}
      | None => {| description := None; shortDescription := None |}
      end
  end.

End Readme.

(** ** The asset detector (src/detectors/asset-detector.ts) *)

Module Assets.

Record AssetResult : Type := {
  models : list string;
  images : list string;
  thumbnail : option string
}.

(** What [readdir(dir, { withFileTypes: true })] shows of a directory
    tree; a directory that cannot be read has no entries. *)
Inductive Dirent : Type :=
| File (name : string)
| Dir (name : string) (entries : list Dirent).

Definition MODEL_EXTENSIONS : list string := [".stl"; ".gltf"; ".glb"; ".obj"; ".fbx"; ".3mf"].
Definition IMAGE_EXTENSIONS : list string := [".png"; ".jpg"; ".jpeg"; ".gif"; ".webp"; ".svg"].
Definition IMAGE_DIRS : list string :=
  ["docs"; "assets"; "images"; "screenshots"; "public"; "media"].
Definition SKIP_DIRS : list string :=
  ["node_modules"; ".git"; "dist"; "build"; "__pycache__";
   ".next"; ".cache"; "vendor"; ".venv"; "venv"].
(** [/^thumb/i], [/^cover/i], [/^hero/i], [/^banner/i], [/^preview/i] *)
Definition THUMBNAIL_PATTERNS : list string := ["thumb"; "cover"; "hero"; "banner"; "preview"].

(** The text from the last dot of [s] on, [None] without a dot. *)
Fixpoint fromLastDot (s : string) : option string :=
  match s with
  | EmptyString => None
  | String c r =>
      match fromLastDot r with
      | Some e => Some e
      | None => if Ascii.eqb c "." then Some s else None
      end
  end.

(** [extname(name)] of a file name: from its last dot on; empty when the
    only dot is the first character, and for [..]. *)
Definition extname (name : string) : string :=
  if name =? ".." then ""
  else match name with
       | EmptyString => ""
       | String c r =>
           match fromLastDot r with
           | Some e => e
           | None => ""
           end
       end.

(** [walkDir(dir, rootDir, filter, restrictToDirs, depth)]; [prefix] is the
    path of [dir] relative to [rootDir], with its final slash. *)
Fixpoint walkEntry (filter : string -> bool) (restrictToDirs : option (list string))
    (depth : nat) (prefix : string) (entry : Dirent) : list string :=
  match entry with
  | File name =>
      if Js.mem name SKIP_DIRS then []
      else if filter (Js.toLowerCase (extname name)) then [prefix ++ name] else []
  | Dir name entries =>
      if Js.mem name SKIP_DIRS then []
      else if match restrictToDirs with
              | Some dirs => (depth =? 0)%nat && negb (Js.mem (Js.toLowerCase name) dirs)
              | None => false
              end
      then []
      else flat_map (walkEntry filter None (S depth) (prefix ++ name ++ "/")) entries
  end.

Definition walkDir (entries : list Dirent) (filter : string -> bool)
    (restrictToDirs : option (list string)) : list string :=
  flat_map (walkEntry filter restrictToDirs 0 "") entries.

Definition basename (img : string) : string :=
  match Js.pop (Js.split "/" img) with
  | Some f => f
  | None => ""
  end.

Definition pickThumbnail (images : list string) : option string :=
  match images with
  | [] => None
  | first :: _ =>
      match
        flat_map (fun pattern =>
                    match find (fun img => Js.startsWith (Js.toLowerCase (basename img)) pattern)
                               images with
                    | Some img => if img =? "" then [] else [img]
                    | None => []
                    end) THUMBNAIL_PATTERNS
      with
      | img :: _ => Some img
      | [] => Some first
      end
  end.

(** [detectAssets(dir)] on the entries of [dir]. *)
Definition detectAssets (entries : list Dirent) : AssetResult :=
  let models := walkDir entries (fun ext => Js.mem ext MODEL_EXTENSIONS) None in
  let images := walkDir entries (fun ext => Js.mem ext IMAGE_EXTENSIONS) (Some IMAGE_DIRS) in
  {| models := models; images := images; thumbnail := pickThumbnail images |}.

End Assets.

(** ** The metadata detector (src/detectors/metadata-detector.ts) *)

Module Metadata.

Record MetadataResult : Type := {
  m_name : string;
  shortDescription : option string;
  description : option string;
  status : option Status;
  dateCompleted : option string;
  links : option Links
}.

(** What the detector reads of a local repository: the name of its
    directory, the output of the two git commands ([None] when the command
    fails), and the [homepage] of its package.json. *)
Record LocalRepo : Type := {
  dirName : string;
  lastCommitLog : option string;
  tagDates : option string;
  packageHomepage : option string
}.

(** [inferStatus(lastCommitDate)]: [None] is [null], [Some None] a [Date]
    object that is [Invalid Date]. *)
Definition inferStatus (h : Host) (lastCommitDate : option (option JsDate)) : Status :=
  match lastCommitDate with
  | None => Completed
  | Some d => if Cli.olderThan h d then Archived else Completed
  end.

Definition toYearMonth (h : Host) (dateStr : string) : string :=
  match newDate h dateStr with
  | None => ""
  | Some d =>
      let year := getFullYear d in
      let month := Js.padStart2 (Js.ofZ (getMonth d + 1)) in
      Js.ofZ year ++ "-" ++ month
  end.

Definition detectMetadata (h : Host) (repo : LocalRepo) : MetadataResult :=
  let lastCommitStr := option_map Js.trim (lastCommitLog repo) in
  let lastCommitDate :=
    if Js.truthy lastCommitStr
    then match lastCommitStr with Some s => Some (newDate h s) | None => None end
    else None in
  let latestTag := option_map Js.trim (tagDates repo) in
  let tagDate := option_map (fun t => hd "" (Js.split "010" t)) latestTag in
  let dateStr := Js.or_else tagDate lastCommitStr in
  let dateCompleted :=
    if Js.truthy dateStr
    then match dateStr with Some s => Some (toYearMonth h s) | None => None end
    else None in
  {| m_name := Naming.cleanRepoName (dirName repo);
     shortDescription := None;
     description := None;
     status := Some (inferStatus h lastCommitDate);
     dateCompleted := Js.or_else dateCompleted None;
     links := if Js.truthy (packageHomepage repo)
              then Some {| liveDemo := packageHomepage repo; docs := None |}
              else None |}.

End Metadata.

(** ** The commands of the local scanner (src/cli.ts) *)

Module Commands.

(** [TechResult] of the tech detector. *)
Record TechResult : Type := {
  technologies : list string;
  category : string;
  languages : list string
}.

Definition nonEmpty (l : list string) : option (list string) :=
  match l with
  | [] => None
  | _ => Some l
  end.

(** [init]: the document written from the four detectors' results, the
    members that are [undefined] dropped. *)
Definition init (tech : TechResult) (assets : Assets.AssetResult)
    (readme : Readme.ReadmeResult) (meta : Metadata.MetadataResult) : PortfolioConfig :=
  {| cfg_name := Metadata.m_name meta;
     cfg_shortDescription :=
       Js.or_else (Readme.shortDescription readme) (Metadata.shortDescription meta);
     cfg_description := Js.or_else (Readme.description readme) (Metadata.description meta);
     cfg_category := Some (category tech);
     cfg_technologies := nonEmpty (technologies tech);
     cfg_status := Metadata.status meta;
     cfg_dateCompleted := Metadata.dateCompleted meta;
     cfg_models := nonEmpty (Assets.models assets);
     cfg_images := nonEmpty (Assets.images assets);
     cfg_thumbnail := Assets.thumbnail assets;
     cfg_media := None;
     cfg_links := Metadata.links meta;
     cfg_featured := None;
     cfg_exclude := None |}.

(** [update]: the document written over an existing one. *)
Definition update (existing : PortfolioConfig) (tech : TechResult)
    (assets : Assets.AssetResult) (readme : Readme.ReadmeResult)
    (meta : Metadata.MetadataResult) : PortfolioConfig :=
  {| cfg_name := cfg_name existing;
     cfg_shortDescription :=
       if negb (Js.truthy (cfg_shortDescription existing))
       then Js.or_else (Readme.shortDescription readme) (Metadata.shortDescription meta)
       else cfg_shortDescription existing;
     cfg_description :=
       if negb (Js.truthy (cfg_description existing))
       then Js.or_else (Readme.description readme) (Metadata.description meta)
       else cfg_description existing;
     cfg_category :=
       if negb (Js.truthy (cfg_category existing))
       then Some (category tech)
       else cfg_category existing;
     cfg_technologies :=
       match cfg_technologies existing with
       | None | Some [] => nonEmpty (technologies tech)
       | Some ts => Some ts
       end;
     cfg_status := cfg_status existing;
     cfg_dateCompleted := cfg_dateCompleted existing;
     cfg_models := nonEmpty (Assets.models assets);
     cfg_images := nonEmpty (Assets.images assets);
     cfg_thumbnail :=
       if negb (Js.truthy (cfg_thumbnail existing))
       then Assets.thumbnail assets
       else cfg_thumbnail existing;
     cfg_media := cfg_media existing;
     cfg_links := cfg_links existing;
     cfg_featured := cfg_featured existing;
     cfg_exclude := cfg_exclude existing |}.

End Commands.

(** ** Sample inputs *)

Module Samples.

Definition q (s : string) : string := Js.dq ++ s ++ Js.dq.

(** [{"name": "Secret", "exclude": true}] *)
Definition rawExcluded : string :=
  "{" ++ q "name" ++ ": " ++ q "Secret" ++ ", " ++ q "exclude" ++ ": true}".
Definition docExcluded : JValue :=
  JObj [("name", JStr "Secret"); ("exclude", JBool true)].

(** [{"name": "Robot Arm"}] *)
Definition rawNameOnly : string := "{" ++ q "name" ++ ": " ++ q "Robot Arm" ++ "}".
Definition docNameOnly : JValue := JObj [("name", JStr "Robot Arm")].

(** [{"dateCompleted": "2024/03"}] *)
Definition rawBadDate : string := "{" ++ q "dateCompleted" ++ ": " ++ q "2024/03" ++ "}".
Definition docBadDate : JValue := JObj [("dateCompleted", JStr "2024/03")].

(** [{"name": "Notes", "category": ""}] *)
Definition rawEmptyCategory : string :=
  "{" ++ q "name" ++ ": " ++ q "Notes" ++ ", " ++ q "category" ++ ": " ++ q "" ++ "}".
Definition docEmptyCategory : JValue := JObj [("name", JStr "Notes"); ("category", JStr "")].

(** [{"name": "Shelf", "models": []}] *)
Definition rawEmptyModels : string :=
  "{" ++ q "name" ++ ": " ++ q "Shelf" ++ ", " ++ q "models" ++ ": []}".
Definition docEmptyModels : JValue := JObj [("name", JStr "Shelf"); ("models", JArr [])].

Definition pushedMarch2024 : string := "2024-03-15T12:00:00Z".

(** A host whose clock reads 14 November 2024, local time UTC; it knows
    the date and the documents of the samples. *)
Definition host : Host :=
  {| newDate := fun s =>
       if s =? pushedMarch2024
       then Some {| getTime := 1710504000000; getFullYear := 2024; getMonth := 2 |}
       else None;
     oneYearAgo := 1700000000000;
     isUrl := fun s => Js.startsWith s "https://" || Js.startsWith s "http://";
     JSON_parse := fun s =>
       if s =? rawExcluded then Some docExcluded
       else if s =? rawNameOnly then Some docNameOnly
       else if s =? rawBadDate then Some docBadDate
       else if s =? rawEmptyCategory then Some docEmptyCategory
       else if s =? rawEmptyModels then Some docEmptyModels
       else None |}.

Definition repoNamed (n : string) (lang : option string) (tags : list string) : RepoInfo :=
  {| name := n;
     fullName := "u/" ++ n;
     Repo.description := None;
     url := "https://github.com/u/" ++ n;
     homepage := None;
     topics := tags;
     language := lang;
     archived := false;
     pushedAt := pushedMarch2024;
     defaultBranch := "main" |}.

Definition repoSecret : RepoInfo := repoNamed "secret" (Some "Python") ["robotics"].
Definition repoRobotArm : RepoInfo := repoNamed "robot-arm" (Some "Python") ["robotics"; "python"].
Definition repoBare : RepoInfo := repoNamed "bare" None [].
Definition repoBadDate : RepoInfo := repoNamed "bad-date" (Some "Go") [].
Definition repoNotes : RepoInfo := repoNamed "notes" None [].
Definition repoShelf : RepoInfo := repoNamed "shelf" None [].
Definition repoCad : RepoInfo := repoNamed "cad" None [].

(** The README of the scenario. *)
Definition readmeScenario : string :=
  "# Title" ++ Js.nl ++ Js.nl ++ "![badge](url)" ++ Js.nl ++ Js.nl
  ++ "This project does X. It also does Y." ++ Js.nl ++ Js.nl ++ "More text.".

Definition listingScenario : list string := ["docs/photo.png"; "src/icon.png"; "cad/arm.stl"].

(** The same three files as a directory tree. *)
Definition treeScenario : list Assets.Dirent :=
  [ Assets.Dir "docs" [Assets.File "photo.png"];
    Assets.Dir "src" [Assets.File "icon.png"];
    Assets.Dir "cad" [Assets.File "arm.stl"] ].

Definition source : Source :=
  {| getFileContent := fun repo path =>
       if path =? ".portfolio.json" then
         if repo =? "secret" then Some rawExcluded
         else if repo =? "robot-arm" then Some rawNameOnly
         else if repo =? "bad-date" then Some rawBadDate
         else if repo =? "notes" then Some rawEmptyCategory
         else if repo =? "shelf" then Some rawEmptyModels
         else None
       else if path =? "README.md" then
         if repo =? "bad-date" then Some readmeScenario else None
       else None;
     getRepoTree := fun repo branch =>
       if repo =? "bad-date" then listingScenario
       else if repo =? "cad" then ["cad/ARM.STL"]
       else [] |}.

(** A repository without description and without override document, in
    an account where every README is the one of the scenario. *)
Definition repoTitle : RepoInfo := repoNamed "title" None [].

Definition sourceReadme : Source :=
  {| getFileContent := fun repo path =>
       if path =? "README.md" then Some readmeScenario else None;
     getRepoTree := fun repo branch => [] |}.

Definition entryDated (n : string) (date : option string) (feat : option bool)
    : Cli.PortfolioEntry :=
  {| Cli.e_name := n; Cli.shortDescription := None; Cli.description := None;
     Cli.category := None; Cli.technologies := None; Cli.status := None;
     Cli.dateCompleted := date; Cli.models := None; Cli.images := None;
     Cli.thumbnail := None; Cli.media := None; Cli.links := None;
     Cli.featured := feat; Cli.exclude := None;
     Cli.github := "https://github.com/u/" ++ n |}.

(** A document that sets only its name, and detector results for it. *)
Definition existingNameOnly : PortfolioConfig :=
  {| cfg_name := "Robot Arm"; cfg_shortDescription := None; cfg_description := None;
     cfg_category := None; cfg_technologies := None; cfg_status := None;
     cfg_dateCompleted := None; cfg_models := None; cfg_images := None;
     cfg_thumbnail := None; cfg_media := None; cfg_links := None;
     cfg_featured := None; cfg_exclude := None |}.

(** A document whose [technologies] were emptied by hand. *)
Definition existingEmptyTech : PortfolioConfig :=
  {| cfg_name := "Robot Arm"; cfg_shortDescription := None; cfg_description := None;
     cfg_category := None; cfg_technologies := Some []; cfg_status := None;
     cfg_dateCompleted := None; cfg_models := None; cfg_images := None;
     cfg_thumbnail := None; cfg_media := None; cfg_links := None;
     cfg_featured := None; cfg_exclude := None |}.

Definition techSample : Commands.TechResult :=
  {| Commands.technologies := ["React"]; Commands.category := "Web App";
     Commands.languages := ["TypeScript"] |}.

Definition assetsSample : Assets.AssetResult := Assets.detectAssets treeScenario.

Definition readmeSample : Readme.ReadmeResult := Readme.parseReadme (Some readmeScenario).

Definition metaSample : Metadata.MetadataResult :=
  Metadata.detectMetadata host
    {| Metadata.dirName := "robot-arm";
       Metadata.lastCommitLog := Some pushedMarch2024;
       Metadata.tagDates := None;
       Metadata.packageHomepage := None |}.

End Samples.

(** ** The vocabulary of the statements *)

Module Ordering.

(** The comparator of both sorts, on the key of an entry: whether it is
    featured, and its date ([""] when it has none). *)
Definition keyCompare (fa : bool) (da : string) (fb : bool) (db : string) : comparison :=
  if fa && negb fb then Lt
  else if negb fa && fb then Gt
  else String.compare db da.

(** A featured entry is never after one that is not. *)
Definition featuredFirst (fa fb : bool) : bool := implb fb fa.

(** Among entries alike in being featured, the later date comes first, in
    the lexicographic order of the date strings. *)
Definition dateDescending (fa : bool) (da : string) (fb : bool) (db : string) : bool :=
  implb (Bool.eqb fa fb) (String.leb db da).

(** Among entries alike in being featured, nothing dated follows an entry
    without a date. *)
Definition undatedLast (fa : bool) (da : string) (fb : bool) (db : string) : bool :=
  implb (Bool.eqb fa fb && (da =? "")) (db =? "").

Definition mayPrecede (fa : bool) (da : string) (fb : bool) (db : string) : bool :=
  featuredFirst fa fb && dateDescending fa da fb db && undatedLast fa da fb db.

Definition sameKey (fa : bool) (da : string) (fb : bool) (db : string) : bool :=
  Bool.eqb fa fb && (da =? db).

End Ordering.

Module CliOrder.

Definition mayPrecede (a b : Cli.PortfolioEntry) : Prop :=
  Ordering.mayPrecede (Cli.isFeatured a) (Cli.dateKey a)
                      (Cli.isFeatured b) (Cli.dateKey b) = true.

Definition sameKey (k e : Cli.PortfolioEntry) : bool :=
  Ordering.sameKey (Cli.isFeatured k) (Cli.dateKey k) (Cli.isFeatured e) (Cli.dateKey e).

End CliOrder.

Module WebOrder.

Definition mayPrecede (a b : Web.PortfolioEntry) : Prop :=
  Ordering.mayPrecede (Web.isFeatured a) (Web.dateKey a)
                      (Web.isFeatured b) (Web.dateKey b) = true.

Definition sameKey (k e : Web.PortfolioEntry) : bool :=
  Ordering.sameKey (Web.isFeatured k) (Web.dateKey k) (Web.isFeatured e) (Web.dateKey e).

End WebOrder.

Module Ext.

(** The path ends in [ext], letters compared without regard to case. *)
Definition hasExtension (file ext : string) : bool :=
  Js.endsWith (Js.toLowerCase file) ext.

(** No dot anywhere in the text. *)
Fixpoint dotless (s : string) : bool :=
  match s with
  | EmptyString => true
  | String c r => negb (Ascii.eqb c ".") && dotless r
  end.

End Ext.

Module Sentence.

(** No [.], [!] or [?] in the text. *)
Fixpoint unterminated (s : string) : bool :=
  match s with
  | EmptyString => true
  | String c r => negb (Js.is_terminator c) && unterminated r
  end.

End Sentence.

(* ================================================================== *)
(** * Part II. Properties                                              *)
(* ================================================================== *)

(** ** Strings *)

Lemma ascii_compare_refl (c : ascii) : Ascii.compare c c = Eq.
Proof. unfold Ascii.compare. apply N.compare_refl. Qed.

Lemma string_compare_refl (s : string) : String.compare s s = Eq.
Proof.
  induction s as [|c s IH]; simpl; [reflexivity|].
  now rewrite ascii_compare_refl.
Qed.

Lemma ascii_compare_lt_trans (a b c : ascii) :
  Ascii.compare a b = Lt -> Ascii.compare b c = Lt -> Ascii.compare a c = Lt.
Proof.
  unfold Ascii.compare. rewrite !N.compare_lt_iff. apply N.lt_trans.
Qed.

Lemma string_compare_lt_trans (a : string) :
  forall b c, String.compare a b = Lt -> String.compare b c = Lt -> String.compare a c = Lt.
Proof.
  induction a as [|x a IH]; intros [|y b] [|z c]; simpl; try congruence.
  destruct (Ascii.compare x y) eqn:Exy; try discriminate;
    destruct (Ascii.compare y z) eqn:Eyz; try discriminate; intros H1 H2.
  - apply Ascii.compare_eq_iff in Exy, Eyz. subst. rewrite ascii_compare_refl. eauto.
  - apply Ascii.compare_eq_iff in Exy. subst. now rewrite Eyz.
  - apply Ascii.compare_eq_iff in Eyz. subst. now rewrite Exy.
  - now rewrite (ascii_compare_lt_trans _ _ _ Exy Eyz).
Qed.

Lemma string_compare_le_trans (a b c : string) :
  String.compare a b <> Gt -> String.compare b c <> Gt -> String.compare a c <> Gt.
Proof.
  intros Hab Hbc.
  destruct (String.compare a b) eqn:Eab; try congruence.
  - apply String.compare_eq_iff in Eab. now subst.
  - destruct (String.compare b c) eqn:Ebc; try congruence.
    + apply String.compare_eq_iff in Ebc. subst. congruence.
    + rewrite (string_compare_lt_trans _ _ _ Eab Ebc). discriminate.
Qed.

Lemma string_compare_flip (a b : string) :
  String.compare a b = Gt -> String.compare b a <> Gt.
Proof.
  intros H. rewrite String.compare_antisym, H. discriminate.
Qed.

Lemma string_leb_le (a b : string) : String.leb a b = true <-> String.compare a b <> Gt.
Proof.
  unfold String.leb. destruct (String.compare a b); split; congruence.
Qed.

Lemma string_le_empty (s : string) : String.compare s "" <> Gt -> s = "".
Proof. destruct s; simpl; congruence. Qed.

(** ** The sort *)

Section SortFacts.

Variable A : Type.
Variable cmp : A -> A -> comparison.

Let le (a b : A) : Prop := cmp a b <> Gt.

Lemma insert_perm (x : A) (l : list A) : Permutation (JsArray.insert cmp x l) (x :: l).
Proof.
  induction l as [|y r IH]; simpl; [reflexivity|].
  destruct (cmp x y); try reflexivity.
  rewrite IH. apply perm_swap.
Qed.

Lemma sort_perm (l : list A) : Permutation (JsArray.sort cmp l) l.
Proof.
  induction l as [|x r IH]; simpl; [constructor|].
  rewrite insert_perm. now constructor.
Qed.

(** Stability of one insertion: the entries a predicate selects keep their
    order when none of them is jumped by a selected [x]. *)
Lemma insert_filter (P : A -> bool) (x : A) (l : list A) :
  (P x = true -> forall y, In y l -> P y = true -> cmp x y <> Gt) ->
  filter P (JsArray.insert cmp x l) = filter P (x :: l).
Proof.
  induction l as [|y r IH]; intros H; simpl; [reflexivity|].
  destruct (cmp x y) eqn:E; simpl; try reflexivity.
  rewrite IH by (intros Px z Hz; apply H; [exact Px | now right]).
  simpl. destruct (P x) eqn:Px, (P y) eqn:Py; try reflexivity.
  exfalso. apply (H eq_refl y (or_introl eq_refl) Py). exact E.
Qed.

Lemma sort_filter (P : A -> bool) (l : list A) :
  (forall x y, P x = true -> P y = true -> cmp x y <> Gt) ->
  filter P (JsArray.sort cmp l) = filter P l.
Proof.
  intros H. induction l as [|x r IH]; simpl; [reflexivity|].
  rewrite insert_filter by (intros Px y _ Py; now apply H).
  simpl. now rewrite IH.
Qed.

Hypothesis cmp_flip : forall a b, cmp a b = Gt -> cmp b a <> Gt.
Hypothesis cmp_trans : forall a b c, le a b -> le b c -> le a c.

Lemma insert_sorted (x : A) (l : list A) :
  StronglySorted le l -> StronglySorted le (JsArray.insert cmp x l).
Proof.
  induction 1 as [|y r Hr IH Hy]; simpl.
  - repeat constructor.
  - destruct (cmp x y) eqn:E.
    + constructor; [now constructor|].
      assert (Hxy : le x y) by (unfold le; congruence).
      constructor; [exact Hxy|].
      eapply Forall_impl; [|exact Hy]. intros z Hz. now apply cmp_trans with y.
    + constructor; [now constructor|].
      assert (Hxy : le x y) by (unfold le; congruence).
      constructor; [exact Hxy|].
      eapply Forall_impl; [|exact Hy]. intros z Hz. now apply cmp_trans with y.
    + constructor; [exact IH|].
      eapply Permutation_Forall; [symmetry; apply insert_perm|].
      constructor; [now apply cmp_flip | exact Hy].
Qed.

Lemma sort_sorted (l : list A) : StronglySorted le (JsArray.sort cmp l).
Proof.
  induction l as [|x r IH]; simpl; [constructor | now apply insert_sorted].
Qed.

End SortFacts.

Lemma StronglySorted_weaken (A : Type) (R R' : A -> A -> Prop) (l : list A) :
  (forall a b, R a b -> R' a b) -> StronglySorted R l -> StronglySorted R' l.
Proof.
  intros HR. induction 1 as [|x r Hr IH Hx]; constructor; [exact IH|].
  eapply Forall_impl; [|exact Hx]. intros y. apply HR.
Qed.

Lemma keyCompare_flip (fa : bool) (da : string) (fb : bool) (db : string) :
  Ordering.keyCompare fa da fb db = Gt -> Ordering.keyCompare fb db fa da <> Gt.
Proof.
  unfold Ordering.keyCompare. destruct fa, fb; simpl; try discriminate.
  - apply string_compare_flip.
  - apply string_compare_flip.
Qed.

Lemma keyCompare_trans (fa : bool) (da : string) (fb : bool) (db : string)
    (fc : bool) (dc : string) :
  Ordering.keyCompare fa da fb db <> Gt ->
  Ordering.keyCompare fb db fc dc <> Gt ->
  Ordering.keyCompare fa da fc dc <> Gt.
Proof.
  unfold Ordering.keyCompare. destruct fa, fb, fc; simpl; try congruence;
    intros H1 H2; now apply string_compare_le_trans with db.
Qed.

Lemma keyCompare_mayPrecede (fa : bool) (da : string) (fb : bool) (db : string) :
  Ordering.keyCompare fa da fb db <> Gt -> Ordering.mayPrecede fa da fb db = true.
Proof.
  unfold Ordering.keyCompare, Ordering.mayPrecede, Ordering.featuredFirst,
    Ordering.dateDescending, Ordering.undatedLast.
  destruct fa, fb; simpl; try congruence; intros H;
    rewrite (proj2 (string_leb_le db da) H); simpl;
    destruct (String.eqb_spec da "") as [->|_]; simpl; try reflexivity;
    now rewrite (string_le_empty _ H).
Qed.

Lemma sameKey_compare (fk : bool) (dk : string) (fa : bool) (da : string)
    (fb : bool) (db : string) :
  Ordering.sameKey fk dk fa da = true -> Ordering.sameKey fk dk fb db = true ->
  Ordering.keyCompare fa da fb db <> Gt.
Proof.
  unfold Ordering.sameKey, Ordering.keyCompare.
  rewrite !andb_true_iff, !String.eqb_eq.
  intros [Ha <-] [Hb <-]. apply eqb_prop in Ha, Hb. subst fa fb.
  destruct fk; simpl; rewrite string_compare_refl; discriminate.
Qed.

Section KeyedSort.

Variable A : Type.
Variable feat : A -> bool.
Variable date : A -> string.

Let cmp (a b : A) : comparison :=
  Ordering.keyCompare (feat a) (date a) (feat b) (date b).

(** The sort by the two-level key rearranges its input, puts it in the
    order of the key, and keeps entries of one key in their order. *)
Lemma keyed_sort_spec (l : list A) :
  Permutation (JsArray.sort cmp l) l
  /\ StronglySorted
       (fun a b => Ordering.mayPrecede (feat a) (date a) (feat b) (date b) = true)
       (JsArray.sort cmp l)
  /\ (forall k : A,
        filter (fun e => Ordering.sameKey (feat k) (date k) (feat e) (date e))
               (JsArray.sort cmp l)
        = filter (fun e => Ordering.sameKey (feat k) (date k) (feat e) (date e)) l).
Proof.
  split; [apply sort_perm|]. split.
  - apply StronglySorted_weaken with (R := fun a b => cmp a b <> Gt).
    + intros a b. apply keyCompare_mayPrecede.
    + apply sort_sorted.
      * intros a b. apply keyCompare_flip.
      * intros a b c. apply keyCompare_trans.
  - intros k. apply sort_filter. intros x y. apply sameKey_compare.
Qed.

End KeyedSort.

(** C4.  The sort before formatting, in the aggregator and in the browser
    scan alike, is a stable sort by a two-level key: its output is a
    rearrangement of its input in which every featured entry stands before
    every entry that is not featured, entries alike in being featured stand
    by descending lexicographic order of [dateCompleted] with those lacking
    a date (absent or empty) last, and entries of equal key keep the order
    they had in the input. *)
Theorem sort_stable_two_level :
  (forall l : list Cli.PortfolioEntry,
      Permutation (Cli.sortEntries l) l
      /\ StronglySorted CliOrder.mayPrecede (Cli.sortEntries l)
      /\ (forall k, filter (CliOrder.sameKey k) (Cli.sortEntries l)
                    = filter (CliOrder.sameKey k) l))
  /\ (forall l : list Web.PortfolioEntry,
         Permutation (Web.sortEntries l) l
         /\ StronglySorted WebOrder.mayPrecede (Web.sortEntries l)
         /\ (forall k, filter (WebOrder.sameKey k) (Web.sortEntries l)
                       = filter (WebOrder.sameKey k) l)).
Proof.
  split; intros l.
  - exact (keyed_sort_spec Cli.isFeatured Cli.dateKey l).
  - exact (keyed_sort_spec Web.isFeatured Web.dateKey l).
Qed.

(** The scenario of the specification: a featured entry of 2023-01 sorts
    before an entry of 2024-03 that is not featured. *)
Example sort_featured_before_newer :
  map Cli.e_name
    (Cli.sortEntries [Samples.entryDated "newer" (Some "2024-03") None;
                      Samples.entryDated "featured" (Some "2023-01") (Some true)])
  = ["featured"; "newer"].
Proof. reflexivity. Qed.

Lemma StronglySorted_between (A : Type) (R : A -> A -> Prop) (l1 l2 l3 : list A) (a b : A) :
  StronglySorted R (l1 ++ a :: l2 ++ b :: l3) -> R a b.
Proof.
  induction l1 as [|x l1 IH]; simpl; intros H; inversion H as [|? ? Hs Hall]; subst.
  - rewrite Forall_forall in Hall. apply Hall. apply in_or_app. right. now left.
  - now apply IH.
Qed.

(** The order of the output read at two positions: whenever [a] stands
    before [b] after the sort. *)
Corollary cli_sorted_positions (l l1 l2 l3 : list Cli.PortfolioEntry)
    (a b : Cli.PortfolioEntry) :
  Cli.sortEntries l = (l1 ++ a :: l2 ++ b :: l3)%list ->
  (Cli.isFeatured b = true -> Cli.isFeatured a = true)
  /\ (Cli.isFeatured a = Cli.isFeatured b ->
      String.leb (Cli.dateKey b) (Cli.dateKey a) = true)
  /\ (Cli.isFeatured a = Cli.isFeatured b -> Cli.dateKey a = "" -> Cli.dateKey b = "").
Proof.
  intros E.
  destruct (keyed_sort_spec Cli.isFeatured Cli.dateKey l) as [_ [S _]].
  change (JsArray.sort _ l) with (Cli.sortEntries l) in S. rewrite E in S.
  apply StronglySorted_between in S.
  unfold Ordering.mayPrecede, Ordering.featuredFirst, Ordering.dateDescending,
    Ordering.undatedLast in S.
  apply andb_true_iff in S. destruct S as [S U].
  apply andb_true_iff in S. destruct S as [F D].
  repeat split.
  - intros Hb. rewrite Hb in F. now destruct (Cli.isFeatured a).
  - intros Hab. rewrite Hab, eqb_reflx in D. exact D.
  - intros Hab Ha. rewrite Hab, eqb_reflx, Ha in U. simpl in U.
    now apply String.eqb_eq.
Qed.

(** ** Deduplication through a [Set] *)

Lemma mem_In (x : string) (l : list string) : Js.mem x l = true <-> In x l.
Proof.
  unfold Js.mem. rewrite existsb_exists. split.
  - intros [y [Hy E]]. apply String.eqb_eq in E. now subst.
  - intros H. exists x. split; [exact H | apply String.eqb_refl].
Qed.

Lemma mem_cons (x y : string) (l : list string) :
  Js.mem x (y :: l) = (x =? y) || Js.mem x l.
Proof. reflexivity. Qed.

Lemma uniq_from_In (l seen : list string) (x : string) :
  In x (Js.uniq_from seen l) <-> In x l /\ Js.mem x seen = false.
Proof.
  revert seen. induction l as [|y r IH]; intros seen; simpl; [tauto|].
  destruct (Js.mem y seen) eqn:M.
  - rewrite IH. split; [tauto|]. intros [[->|H] Hx]; [congruence | tauto].
  - simpl. rewrite IH, mem_cons. split.
    + intros [->|[H Hx]]; [tauto|].
      apply orb_false_iff in Hx. tauto.
    + intros [[->|H] Hx]; [tauto|].
      destruct (String.eqb_spec x y) as [->|N]; [tauto|]. right. simpl. tauto.
Qed.

Lemma uniq_from_NoDup (l seen : list string) : NoDup (Js.uniq_from seen l).
Proof.
  revert seen. induction l as [|y r IH]; intros seen; simpl; [constructor|].
  destruct (Js.mem y seen); [apply IH|].
  constructor; [|apply IH].
  rewrite uniq_from_In, mem_cons, String.eqb_refl. simpl. intros [_ H]. discriminate.
Qed.

Lemma uniq_from_ext (l s1 s2 : list string) :
  (forall z, Js.mem z s1 = Js.mem z s2) -> Js.uniq_from s1 l = Js.uniq_from s2 l.
Proof.
  revert s1 s2. induction l as [|y r IH]; intros s1 s2 H; simpl; [reflexivity|].
  rewrite (H y). destruct (Js.mem y s2); [now apply IH|].
  f_equal. apply IH. intros z. rewrite !mem_cons. now rewrite H.
Qed.

Lemma filter_twice (A : Type) (f : A -> bool) (l : list A) :
  filter f (filter f l) = filter f l.
Proof.
  induction l as [|a l IH]; simpl; [reflexivity|].
  destruct (f a) eqn:E; simpl; [rewrite E; f_equal|]; exact IH.
Qed.

Lemma uniq_from_cons_filter (l seen : list string) (x : string) :
  Js.uniq_from (x :: seen) l = filter (fun y => negb (y =? x)) (Js.uniq_from seen l).
Proof.
  revert seen. induction l as [|y r IH]; intros seen; simpl; [reflexivity|].
  destruct (Js.mem y seen) eqn:M.
  - rewrite orb_true_r. apply IH.
  - rewrite orb_false_r. destruct (String.eqb_spec y x) as [->|N]; simpl.
    + rewrite String.eqb_refl. simpl. rewrite !IH. now rewrite filter_twice.
    + apply String.eqb_neq in N. rewrite N. simpl. f_equal. rewrite <- IH.
      apply uniq_from_ext. intros z. rewrite !mem_cons. destruct (z =? y), (z =? x); reflexivity.
Qed.

(** The first occurrence of every value is the one kept, in its place. *)
Lemma uniq_cons (x : string) (l : list string) :
  Js.uniq (x :: l) = x :: filter (fun y => negb (y =? x)) (Js.uniq l).
Proof.
  unfold Js.uniq. simpl. f_equal. apply uniq_from_cons_filter.
Qed.

Lemma uniq_NoDup (l : list string) : NoDup (Js.uniq l).
Proof. apply uniq_from_NoDup. Qed.

Lemma uniq_In (l : list string) (x : string) : In x (Js.uniq l) <-> In x l.
Proof. unfold Js.uniq. rewrite uniq_from_In. simpl. tauto. Qed.

(** ** Status inference *)



(** ** The merge with a valid override *)

Lemma truthy_some (s : string) : s <> "" -> Js.truthy (Some s) = true.
Proof. intros H. simpl. apply String.eqb_neq in H. now rewrite H. Qed.

(** With a valid override the aggregator answers with the entry built
    from it. *)
Lemma cli_processRepo_valid (h : Host) (src : Source) (repo : RepoInfo)
    (raw : string) (doc : JValue) (data : PortfolioConfig) :
  getFileContent src (name repo) ".portfolio.json" = Some raw ->
  raw <> "" ->
  JSON_parse h raw = Some doc ->
  Schema.validateConfig h doc = Schema.Success data ->
  Cli.processRepo h src repo = Some (Cli.fromConfig h repo data).
Proof.
  intros Hraw Hne Hdoc Hok. unfold Cli.processRepo.
  rewrite Hraw, (truthy_some Hne), Hdoc, Hok. reflexivity.
Qed.

Lemma web_processRepo_valid (h : Host) (src : Source) (repo : RepoInfo)
    (raw : string) (doc : JValue) (data : PortfolioConfig) :
  getFileContent src (name repo) ".portfolio.json" = Some raw ->
  raw <> "" ->
  JSON_parse h raw = Some doc ->
  Schema.validateConfig h doc = Schema.Success data ->
  Web.processRepo h src repo = Web.Entry (Web.fromConfig h repo data).
Proof.
  intros Hraw Hne Hdoc Hok. unfold Web.processRepo.
  rewrite Hraw, (truthy_some Hne), Hdoc, Hok. reflexivity.
Qed.

(** The auto-detected technology list: the language, when there is one,
    then the labels of the mapped topics, every label once at its first
    place. *)
Lemma inferTech_detected (lang : option string) (topics : list string) :
  Cli.inferTechFromLanguage lang topics
  = Js.uniq ((if Js.truthy lang then match lang with Some l => [l] | None => [] end else [])
             ++ Cli.topicTechs Cli.topicMap topics)%list
  /\ NoDup (Cli.inferTechFromLanguage lang topics)
  /\ Web.inferTech lang topics = Cli.inferTechFromLanguage lang topics.
Proof.
  split; [reflexivity|]. split; [apply uniq_NoDup | reflexivity].
Qed.

(** C2, as the code has it.  For every repository with a valid override
    document, both aggregators produce an entry whose [technologies] are
    the override's when it has them and the auto-detected list otherwise,
    and whose [category] is the override's when it has one that is not the
    empty string and the auto-detected category otherwise; the detected
    list has no repetition.  Neither field is ever absent. *)
Theorem override_gaps_are_auto_filled (h : Host) (src : Source) (repo : RepoInfo)
    (raw : string) (doc : JValue) (data : PortfolioConfig) :
  getFileContent src (name repo) ".portfolio.json" = Some raw ->
  raw <> "" ->
  JSON_parse h raw = Some doc ->
  Schema.validateConfig h doc = Schema.Success data ->
  (exists e : Cli.PortfolioEntry,
      Cli.processRepo h src repo = Some e
      /\ Cli.technologies e
         = Some (match cfg_technologies data with
                 | Some ts => ts
                 | None => Cli.inferTechFromLanguage (language repo) (topics repo)
                 end)
      /\ Cli.category e
         = Some (match cfg_category data with
                 | Some c => if c =? "" then Cli.inferCategoryFromTopics (topics repo) (language repo)
                             else c
                 | None => Cli.inferCategoryFromTopics (topics repo) (language repo)
                 end))
  /\ (exists e : Web.PortfolioEntry,
         Web.processRepo h src repo = Web.Entry e
         /\ Web.technologies e
            = Some (match cfg_technologies data with
                    | Some ts => ts
                    | None => Web.inferTech (language repo) (topics repo)
                    end)
         /\ Web.category e
            = Some (match cfg_category data with
                    | Some c => if c =? "" then Web.inferCategory (topics repo) (language repo)
                                else c
                    | None => Web.inferCategory (topics repo) (language repo)
                    end))
  /\ NoDup (Cli.inferTechFromLanguage (language repo) (topics repo))
  /\ NoDup (Web.inferTech (language repo) (topics repo)).
Proof.
  intros Hraw Hne Hdoc Hok. repeat split.
  - exists (Cli.fromConfig h repo data).
    split; [now apply cli_processRepo_valid with raw doc|]. simpl. split.
    + now destruct (cfg_technologies data).
    + destruct (cfg_category data) as [c|]; simpl; [|reflexivity].
      now destruct (c =? "").
  - exists (Web.fromConfig h repo data).
    split; [now apply web_processRepo_valid with raw doc|]. simpl. split.
    + now destruct (cfg_technologies data).
    + unfold Js.or_else. destruct (cfg_category data) as [c|]; simpl; [|reflexivity].
      now destruct (c =? "").
  - apply uniq_NoDup.
  - apply uniq_NoDup.
Qed.

(** The theorem at the override [{"name": "Robot Arm"}] of a Python
    repository tagged [robotics]. *)
Lemma override_gaps_are_auto_filled_witness :
  (exists e : Cli.PortfolioEntry,
      Cli.processRepo Samples.host Samples.source Samples.repoRobotArm = Some e
      /\ Cli.technologies e = Some ["Python"]
      /\ Cli.category e = Some "Robotics")
  /\ (exists e : Web.PortfolioEntry,
         Web.processRepo Samples.host Samples.source Samples.repoRobotArm = Web.Entry e
         /\ Web.technologies e = Some ["Python"]
         /\ Web.category e = Some "Robotics")
  /\ NoDup (Cli.inferTechFromLanguage (Some "Python") ["robotics"; "python"])
  /\ NoDup (Web.inferTech (Some "Python") ["robotics"; "python"]).
Proof.
  apply (@override_gaps_are_auto_filled Samples.host Samples.source Samples.repoRobotArm
           Samples.rawNameOnly Samples.docNameOnly Samples.existingNameOnly);
    [reflexivity | discriminate | reflexivity | reflexivity].
Defined.

(** C2 as stated fails where the override's category is the empty
    string: the document [{"name": "Notes", "category": ""}] is valid and
    has a category, and the entry's category is the detected one. *)
Lemma override_empty_category_not_kept :
  exists data : PortfolioConfig,
    Schema.validateConfig Samples.host Samples.docEmptyCategory = Schema.Success data
    /\ cfg_category data = Some ""
    /\ option_map Cli.category
         (Cli.processRepo Samples.host Samples.source Samples.repoNotes)
       = Some (Some "Software")
    /\ option_map Cli.category
         (Cli.processRepo Samples.host Samples.source Samples.repoNotes)
       <> Some (cfg_category data).
Proof.
  eexists. split; [reflexivity|]. split; [reflexivity|]. split; [reflexivity|].
  discriminate.
Qed.

(** ** Substrings of the emitted text *)

Lemma string_app_assoc (a b c : string) : (a ++ b) ++ c = a ++ (b ++ c).
Proof. induction a as [|x a IH]; simpl; [reflexivity | now rewrite IH]. Qed.

Lemma string_app_empty_r (a : string) : a ++ "" = a.
Proof. induction a as [|x a IH]; simpl; [reflexivity | now rewrite IH]. Qed.

Lemma prefix_iff (p s : string) : String.prefix p s = true <-> exists q, s = p ++ q.
Proof.
  revert s. induction p as [|x p IH]; intros s.
  - split; [intros _; now exists s | intros _; now destruct s].
  - destruct s as [|y s]; simpl.
    + split; [discriminate | intros [q H]; discriminate].
    + destruct (ascii_dec x y) as [->|N].
      * rewrite IH. split; intros [q H]; exists q; [now rewrite H | simpl in H; congruence].
      * split; [discriminate | intros [q H]; simpl in H; congruence].
Qed.

Lemma includes_nil (sub : string) : Js.includes "" sub = String.prefix sub "" || false.
Proof. reflexivity. Qed.

Lemma includes_cons (c : ascii) (s sub : string) :
  Js.includes (String c s) sub = String.prefix sub (String c s) || Js.includes s sub.
Proof. reflexivity. Qed.

Lemma includes_iff (s sub : string) :
  Js.includes s sub = true <-> exists p q, s = p ++ sub ++ q.
Proof.
  induction s as [|c s IH].
  - rewrite includes_nil, orb_false_r, prefix_iff. split.
    + intros [q H]. now exists "", q.
    + intros [p [q H]]. destruct p; [now exists q|discriminate].
  - rewrite includes_cons, orb_true_iff, prefix_iff, IH. split.
    + intros [[q H] | [p [q H]]].
      * now exists "", q.
      * exists (String c p), q. simpl. now rewrite H.
    + intros [[|x p] [q H]].
      * left. now exists q.
      * right. exists p, q. simpl in H. congruence.
Qed.

Lemma includes_self (s : string) : Js.includes s s = true.
Proof. apply includes_iff. exists "", "". simpl. now rewrite string_app_empty_r. Qed.

Lemma includes_app_l (a b sub : string) :
  Js.includes a sub = true -> Js.includes (a ++ b) sub = true.
Proof.
  rewrite !includes_iff. intros [p [q H]]. exists p, (q ++ b).
  now rewrite H, !string_app_assoc.
Qed.

Lemma includes_app_r (a b sub : string) :
  Js.includes b sub = true -> Js.includes (a ++ b) sub = true.
Proof.
  rewrite !includes_iff. intros [p [q H]]. exists (a ++ p), q.
  now rewrite H, !string_app_assoc.
Qed.

Lemma includes_trans (a b c : string) :
  Js.includes a b = true -> Js.includes b c = true -> Js.includes a c = true.
Proof.
  rewrite !includes_iff. intros [p [q H]] [p' [q' H']].
  exists (p ++ p'), (q' ++ q). now rewrite H, H', !string_app_assoc.
Qed.

Lemma includes_join (sep : string) (l : list string) (x : string) :
  In x l -> Js.includes (Js.join sep l) x = true.
Proof.
  unfold Js.join. induction l as [|y l IH]; [intros []|].
  intros [->|H].
  - destruct l; simpl; [apply includes_self | apply includes_app_l, includes_self].
  - destruct l as [|z l]; [destruct H|].
    change (String.concat sep (y :: z :: l)) with (y ++ sep ++ String.concat sep (z :: l)).
    now apply includes_app_r, includes_app_r, IH.
Qed.

Lemma stringify_obj_member (depth : nat) (members : list (string * JValue))
    (k : string) (v : JValue) :
  In (k, v) members ->
  Js.includes (Json.stringify_at depth (JObj members))
    (Json.quote k ++ ": " ++ Json.stringify_at (S depth) v) = true.
Proof.
  intros H. destruct members as [|m members]; [destruct H|].
  cbn [Json.stringify_at].
  apply includes_app_r, includes_app_r, includes_app_l.
  apply includes_trans
    with (Json.spaces (2 * S depth) ++ Json.quote k ++ ": " ++ Json.stringify_at (S depth) v).
  - apply includes_join.
    apply (in_map (fun kv => Json.spaces (2 * S depth) ++ Json.quote (fst kv) ++ ": "
                             ++ Json.stringify_at (S depth) (snd kv)) _ (k, v)).
    exact H.
  - apply includes_app_r, includes_self.
Qed.

Lemma stringify_arr_item (depth : nat) (items : list JValue) (x : JValue) :
  In x items ->
  Js.includes (Json.stringify_at depth (JArr items)) (Json.stringify_at (S depth) x) = true.
Proof.
  intros H. destruct items as [|i items]; [destruct H|].
  cbn [Json.stringify_at].
  apply includes_app_r, includes_app_r, includes_app_l.
  apply includes_trans with (Json.spaces (2 * S depth) ++ Json.stringify_at (S depth) x).
  - apply includes_join.
    apply (in_map (fun y => Json.spaces (2 * S depth) ++ Json.stringify_at (S depth) y) _ x).
    exact H.
  - apply includes_app_r, includes_self.
Qed.

(** Every entry handed to a formatter of the aggregator is in the text,
    with its repository address.  *)
Lemma cli_toYaml_has_entry (entries : list Cli.PortfolioEntry) (e : Cli.PortfolioEntry) :
  In e entries ->
  Js.includes (Cli.toYaml entries) ("    github: " ++ Cli.github e) = true.
Proof.
  intros H. unfold Cli.toYaml. apply includes_join. right.
  apply in_flat_map. exists e. split; [exact H|].
  unfold Cli.yamlBlock. apply in_concat.
  exists ["    github: " ++ Cli.github e]. split; [|now left].
  simpl. tauto.
Qed.

Lemma cli_addToCategory_adds (cat : string) (e : Cli.PortfolioEntry)
    (categories : list (string * list Cli.PortfolioEntry)) :
  exists g, In g (Cli.addToCategory cat e categories) /\ In e (snd g).
Proof.
  induction categories as [|[c projects] rest IH]; simpl.
  - exists (cat, [e]). split; [now left | now left].
  - destruct (c =? cat).
    + exists (c, (projects ++ [e])%list). split; [now left|].
      simpl. apply in_or_app. right. now left.
    + destruct IH as [g [Hg He]]. exists g. split; [now right | exact He].
Qed.

Lemma cli_addToCategory_keeps (cat : string) (e x : Cli.PortfolioEntry)
    (categories : list (string * list Cli.PortfolioEntry)) :
  (exists g, In g categories /\ In x (snd g)) ->
  exists g, In g (Cli.addToCategory cat e categories) /\ In x (snd g).
Proof.
  induction categories as [|[c projects] rest IH]; simpl; intros [g [Hg Hx]]; [destruct Hg|].
  destruct Hg as [<-|Hg].
  - destruct (c =? cat).
    + exists (c, (projects ++ [e])%list). split; [now left|].
      simpl. simpl in Hx. apply in_or_app. now left.
    + exists (c, projects). split; [now left | exact Hx].
  - destruct (c =? cat).
    + exists g. split; [now right | exact Hx].
    + destruct IH as [g' [Hg' Hx']]; [now exists g|].
      exists g'. split; [now right | exact Hx'].
Qed.

Lemma cli_groupByCategory_In (entries : list Cli.PortfolioEntry) (x : Cli.PortfolioEntry) :
  In x entries -> exists g, In g (Cli.groupByCategory entries) /\ In x (snd g).
Proof.
  unfold Cli.groupByCategory.
  assert (G : forall l acc,
             In x l \/ (exists g, In g acc /\ In x (snd g)) ->
             exists g,
               In g (fold_left (fun categories e =>
                                  Cli.addToCategory (Cli.categoryOf e) e categories) l acc)
               /\ In x (snd g)).
  { induction l as [|e l IH]; intros acc H; simpl.
    - destruct H as [[]|H]; exact H.
    - apply IH. destruct H as [[->|H]|H].
      + right. apply cli_addToCategory_adds.
      + now left.
      + right. now apply cli_addToCategory_keeps. }
  intros H. apply G. now left.
Qed.

Lemma cli_toMarkdown_has_entry (entries : list Cli.PortfolioEntry) (e : Cli.PortfolioEntry) :
  In e entries ->
  Js.includes (Cli.toMarkdown entries) ("- **GitHub:** " ++ Cli.github e) = true.
Proof.
  intros H. unfold Cli.toMarkdown. apply includes_join. right.
  destruct (cli_groupByCategory_In entries e H) as [g [Hg He]].
  apply in_flat_map. exists g. split; [exact Hg|]. right.
  apply in_flat_map. exists e. split; [exact He|].
  unfold Cli.markdownProject. apply in_concat.
  exists ["- **GitHub:** " ++ Cli.github e]. split; [|now left].
  simpl. tauto.
Qed.

Lemma cli_members_github (e : Cli.PortfolioEntry) :
  In ("github", JStr (Cli.github e)) (Cli.entryMembers e).
Proof.
  unfold Cli.entryMembers. apply in_concat.
  exists [("github", JStr (Cli.github e))]. split; [|now left].
  simpl. tauto.
Qed.

Lemma cli_json_has_entry (entries : list Cli.PortfolioEntry) (e : Cli.PortfolioEntry) :
  In e entries ->
  Js.includes (Cli.formatOutput entries Cli.json)
    (Json.quote "github" ++ ": " ++ Json.quote (Cli.github e)) = true.
Proof.
  intros H. unfold Cli.formatOutput, Json.stringify, Cli.projectsJson.
  eapply includes_trans.
  { apply stringify_obj_member. now left. }
  apply includes_app_r, includes_app_r.
  eapply includes_trans.
  { apply stringify_arr_item.
    apply (in_map (fun e => JObj (Cli.entryMembers e)) _ e). exact H. }
  apply (stringify_obj_member 2 (Cli.entryMembers e) "github" (JStr (Cli.github e))).
  apply cli_members_github.
Qed.

Lemma keepSome_In (l : list (option Cli.PortfolioEntry)) (e : Cli.PortfolioEntry) :
  In (Some e) l -> In e (Cli.keepSome l).
Proof.
  induction l as [|[x|] l IH]; simpl; [tauto| |].
  - intros [H|H]; [left; congruence | right; auto].
  - intros [H|H]; [discriminate | auto].
Qed.

(** A repository with a valid override that [--exclude] does not name is
    in the entries of [generate], whatever the override says of
    [exclude]. *)
Lemma cli_generate_keeps_override (h : Host) (src : Source) (repos : list RepoInfo)
    (excludeNames : list string) (repo : RepoInfo) (raw : string) (doc : JValue)
    (data : PortfolioConfig) :
  In repo repos ->
  Js.mem (name repo) excludeNames = false ->
  Js.startsWith (name repo) "." = false ->
  getFileContent src (name repo) ".portfolio.json" = Some raw ->
  raw <> "" ->
  JSON_parse h raw = Some doc ->
  Schema.validateConfig h doc = Schema.Success data ->
  In (Cli.fromConfig h repo data) (Cli.generateEntries h src repos excludeNames).
Proof.
  intros Hin Hex Hdot Hraw Hne Hdoc Hok. unfold Cli.generateEntries, Cli.sortEntries.
  eapply Permutation_in; [symmetry; apply sort_perm|].
  apply keepSome_In.
  rewrite <- (cli_processRepo_valid h src repo Hraw Hne Hdoc Hok).
  apply in_map. apply filter_In. split; [exact Hin|].
  now rewrite Hex, Hdot.
Qed.

(** ** What the override path of the aggregator leaves out *)

(** [processRepo] of the aggregator never answers [null]: the branch of
    [generate] that reports a repository as skipped is never taken. *)
Lemma cli_processRepo_never_null (h : Host) (src : Source) (repo : RepoInfo) :
  exists e, Cli.processRepo h src repo = Some e.
Proof.
  unfold Cli.processRepo.
  destruct (Js.truthy _); [|eauto].
  destruct (getFileContent _ _ _); [|eauto].
  destruct (JSON_parse _ _); [|eauto].
  destruct (Schema.validateConfig _ _); eauto.
Qed.

(** The browser variant turns [exclude: true] into a disabled entry, and
    its formatter drops disabled entries. *)
Lemma web_exclude_disables (h : Host) (repo : RepoInfo) (data : PortfolioConfig) :
  cfg_exclude data = Some true -> Web.enabled (Web.fromConfig h repo data) = false.
Proof. intros H. simpl. now rewrite H. Qed.

Lemma web_formatEntries_drops_disabled (e : Web.PortfolioEntry)
    (before after : list Web.PortfolioEntry) (format : Web.OutputFormat) :
  Web.enabled e = false ->
  Web.formatEntries (before ++ e :: after) format = Web.formatEntries (before ++ after) format.
Proof.
  intros H. unfold Web.formatEntries. rewrite !filter_app. simpl. now rewrite H.
Qed.

(** The aggregator copies [exclude] and [dateCompleted] from the override
    as they are. *)
Lemma cli_fromConfig_copies (h : Host) (repo : RepoInfo) (data : PortfolioConfig) :
  Cli.exclude (Cli.fromConfig h repo data) = cfg_exclude data
  /\ Cli.dateCompleted (Cli.fromConfig h repo data) = cfg_dateCompleted data
  /\ Cli.github (Cli.fromConfig h repo data) = url repo.
Proof. repeat split. Qed.

(** C1, on the code.  A repository that [--exclude] does not name and
    whose valid override has [exclude: true] is in the text [generate]
    writes, in each of the three encodings.  So it is for the repository
    [secret] with the override [{"name": "Secret", "exclude": true}]; the
    browser variant, from the same input, emits no entry. *)
Theorem cli_generate_emits_excluded_repository :
  (forall (h : Host) (src : Source) (repos : list RepoInfo) (excludeNames : list string)
          (repo : RepoInfo) (raw : string) (doc : JValue) (data : PortfolioConfig),
      In repo repos ->
      Js.mem (name repo) excludeNames = false ->
      Js.startsWith (name repo) "." = false ->
      getFileContent src (name repo) ".portfolio.json" = Some raw ->
      raw <> "" ->
      JSON_parse h raw = Some doc ->
      Schema.validateConfig h doc = Schema.Success data ->
      cfg_exclude data = Some true ->
      Js.includes (Cli.generate h src repos excludeNames Cli.json)
        (Json.quote "github" ++ ": " ++ Json.quote (url repo)) = true
      /\ Js.includes (Cli.generate h src repos excludeNames Cli.yaml)
           ("    github: " ++ url repo) = true
      /\ Js.includes (Cli.generate h src repos excludeNames Cli.markdown)
           ("- **GitHub:** " ++ url repo) = true)
  /\ (exists data : PortfolioConfig,
         Schema.validateConfig Samples.host Samples.docExcluded = Schema.Success data
         /\ cfg_exclude data = Some true)
  /\ map Cli.github (Cli.generateEntries Samples.host Samples.source [Samples.repoSecret] [])
     = ["https://github.com/u/secret"]
  /\ Js.includes (Cli.generate Samples.host Samples.source [Samples.repoSecret] [] Cli.json)
       "https://github.com/u/secret" = true
  /\ Js.includes (Cli.generate Samples.host Samples.source [Samples.repoSecret] [] Cli.yaml)
       "https://github.com/u/secret" = true
  /\ Js.includes (Cli.generate Samples.host Samples.source [Samples.repoSecret] [] Cli.markdown)
       "https://github.com/u/secret" = true
  /\ Web.startScan Samples.host Samples.source [Samples.repoSecret]
     = Some [Web.fromConfig Samples.host Samples.repoSecret
               {| cfg_name := "Secret"; cfg_shortDescription := None;
                  cfg_description := None; cfg_category := None; cfg_technologies := None;
                  cfg_status := None; cfg_dateCompleted := None; cfg_models := None;
                  cfg_images := None; cfg_thumbnail := None; cfg_media := None;
                  cfg_links := None; cfg_featured := None; cfg_exclude := Some true |}]
  /\ option_map (fun entries => Web.formatEntries entries Web.json)
       (Web.startScan Samples.host Samples.source [Samples.repoSecret])
     = Some (Web.toJson [])
  /\ option_map (fun entries => Web.formatEntries entries Web.yaml)
       (Web.startScan Samples.host Samples.source [Samples.repoSecret])
     = Some (Web.toYaml [])
  /\ option_map (fun entries => Web.formatEntries entries Web.markdown)
       (Web.startScan Samples.host Samples.source [Samples.repoSecret])
     = Some (Web.toMarkdown []).
Proof.
  split.
  { intros h src repos excludeNames repo raw doc data Hin Hex Hdot Hraw Hne Hdoc Hok _.
    pose proof (cli_generate_keeps_override h src repos excludeNames repo
                  Hin Hex Hdot Hraw Hne Hdoc Hok) as E.
    unfold Cli.generate. repeat split.
    - apply (cli_json_has_entry _ _ E).
    - apply (cli_toYaml_has_entry _ _ E).
    - apply (cli_toMarkdown_has_entry _ _ E). }
  split; [eexists; split; reflexivity|].
  repeat split; vm_compute; reflexivity.
Qed.

(** The first part of the theorem at the repository [secret]. *)
Lemma cli_generate_emits_excluded_repository_witness :
  Js.includes (Cli.generate Samples.host Samples.source [Samples.repoSecret] [] Cli.json)
    (Json.quote "github" ++ ": " ++ Json.quote "https://github.com/u/secret") = true
  /\ Js.includes (Cli.generate Samples.host Samples.source [Samples.repoSecret] [] Cli.yaml)
       "    github: https://github.com/u/secret" = true
  /\ Js.includes (Cli.generate Samples.host Samples.source [Samples.repoSecret] [] Cli.markdown)
       "- **GitHub:** https://github.com/u/secret" = true.
Proof.
  apply (proj1 cli_generate_emits_excluded_repository
           Samples.host Samples.source [Samples.repoSecret] [] Samples.repoSecret
           Samples.rawExcluded Samples.docExcluded
           {| cfg_name := "Secret"; cfg_shortDescription := None; cfg_description := None;
              cfg_category := None; cfg_technologies := None; cfg_status := None;
              cfg_dateCompleted := None; cfg_models := None; cfg_images := None;
              cfg_thumbnail := None; cfg_media := None; cfg_links := None;
              cfg_featured := None; cfg_exclude := Some true |});
    [now left | reflexivity | reflexivity | reflexivity | discriminate
    | reflexivity | reflexivity | reflexivity].
Defined.

(** C5, on the code.  With a valid override that sets no [dateCompleted]
    the aggregator's entry has none, for every repository; at the override
    [{"name": "Robot Arm"}] of a repository last pushed in March 2024 the
    browser variant and the aggregator's own auto-detection both give
    [2024-03]. *)
Theorem cli_override_leaves_dateCompleted_unset :
  (forall (h : Host) (repo : RepoInfo) (data : PortfolioConfig),
      Cli.dateCompleted (Cli.fromConfig h repo data) = cfg_dateCompleted data)
  /\ option_map Cli.dateCompleted
       (Cli.processRepo Samples.host Samples.source Samples.repoRobotArm)
     = Some None
  /\ Web.processRepo Samples.host Samples.source Samples.repoRobotArm
     = Web.Entry (Web.fromConfig Samples.host Samples.repoRobotArm Samples.existingNameOnly)
  /\ Web.dateCompleted (Web.fromConfig Samples.host Samples.repoRobotArm Samples.existingNameOnly)
     = Some "2024-03"
  /\ Cli.dateCompleted (Cli.autoDetect Samples.host Samples.source Samples.repoRobotArm)
     = Some "2024-03".
Proof. repeat split. Qed.

(** What the browser variant does in the same place, for every valid
    override without a date. *)
Lemma web_override_defaults_dateCompleted (h : Host) (repo : RepoInfo)
    (data : PortfolioConfig) :
  cfg_dateCompleted data = None ->
  Web.dateCompleted (Web.fromConfig h repo data) = Some (Web.toYearMonth h (pushedAt repo)).
Proof. intros H. simpl. now rewrite H. Qed.

(** ** Arrays in the emitted entries *)

Lemma nonEmpty_not_empty (l : list string) : Cli.nonEmpty l <> Some [].
Proof. destruct l; discriminate. Qed.

Lemma strings_empty (l : list string) : Json.strings l = JArr [] -> l = [].
Proof. destruct l; [reflexivity | discriminate]. Qed.

(** Breaks up membership in a list of members put together from single
    optional members. *)
Ltac split_members H :=
  repeat match type of H with
    | In _ (_ :: _) => destruct H as [H|H]
    | In _ (_ ++ _) => apply in_app_or in H; destruct H as [H|H]
    | In _ (Json.member _ _ ?o) => destruct o eqn:?; simpl in H
    | In _ [] => destruct H
    | _ \/ _ => destruct H as [H|H]
    | False => destruct H
    | (_, _) = (_, _) => inversion H; clear H; subst
    end.

Lemma cli_members_models (e : Cli.PortfolioEntry) (v : JValue) :
  In ("models", v) (Cli.entryMembers e) ->
  exists l, Cli.models e = Some l /\ v = Json.strings l.
Proof.
  intros H. unfold Cli.entryMembers in H. cbn [concat app] in H.
  split_members H. eauto.
Qed.

Lemma cli_members_images (e : Cli.PortfolioEntry) (v : JValue) :
  In ("images", v) (Cli.entryMembers e) ->
  exists l, Cli.images e = Some l /\ v = Json.strings l.
Proof.
  intros H. unfold Cli.entryMembers in H. cbn [concat app] in H.
  split_members H. eauto.
Qed.

Lemma web_members_models (e : Web.PortfolioEntry) (v : JValue) :
  In ("models", v) (Web.entryMembers e) ->
  exists l, Web.models e = Some l /\ v = Json.strings l.
Proof.
  intros H. unfold Web.entryMembers in H. cbn [concat app] in H.
  split_members H. eauto.
Qed.

Lemma web_members_images (e : Web.PortfolioEntry) (v : JValue) :
  In ("images", v) (Web.entryMembers e) ->
  exists l, Web.images e = Some l /\ v = Json.strings l.
Proof.
  intros H. unfold Web.entryMembers in H. cbn [concat app] in H.
  split_members H. eauto.
Qed.

Lemma cli_autoDetect_assets (h : Host) (src : Source) (repo : RepoInfo) :
  Cli.models (Cli.autoDetect h src repo)
  = Cli.nonEmpty (filter Cli.isModel (getRepoTree src (name repo) (defaultBranch repo)))
  /\ Cli.images (Cli.autoDetect h src repo)
     = Cli.nonEmpty (filter Cli.isImage (getRepoTree src (name repo) (defaultBranch repo))).
Proof.
  unfold Cli.autoDetect, Cli.findAssetsInTree. destruct (Cli.describe _ _). split; reflexivity.
Qed.

Lemma web_autoDetect_assets (h : Host) (src : Source) (repo : RepoInfo) :
  Web.models (Web.autoDetect h src repo)
  = Cli.nonEmpty (filter Web.isModel (getRepoTree src (name repo) (defaultBranch repo)))
  /\ Web.images (Web.autoDetect h src repo)
     = Cli.nonEmpty (filter Web.isImage (getRepoTree src (name repo) (defaultBranch repo))).
Proof.
  unfold Web.autoDetect. destruct (Web.describe _ _). split; reflexivity.
Qed.

(** C3, as the code has it.  In an auto-detected entry, of the aggregator
    or of the browser variant, [models] and [images] are a non-empty
    sequence or absent, and the object handed to [JSON.stringify] has no
    [models] or [images] member that is an empty array.  On the override
    path [models], [images] and [technologies] are the override's, as it
    gives them. *)
Theorem detected_asset_arrays_nonempty_or_absent :
  (forall (h : Host) (src : Source) (repo : RepoInfo),
      Cli.models (Cli.autoDetect h src repo) <> Some []
      /\ Cli.images (Cli.autoDetect h src repo) <> Some []
      /\ ~ In ("models", JArr []) (Cli.entryMembers (Cli.autoDetect h src repo))
      /\ ~ In ("images", JArr []) (Cli.entryMembers (Cli.autoDetect h src repo)))
  /\ (forall (h : Host) (src : Source) (repo : RepoInfo),
         Web.models (Web.autoDetect h src repo) <> Some []
         /\ Web.images (Web.autoDetect h src repo) <> Some []
         /\ ~ In ("models", JArr []) (Web.entryMembers (Web.autoDetect h src repo))
         /\ ~ In ("images", JArr []) (Web.entryMembers (Web.autoDetect h src repo)))
  /\ (forall (h : Host) (repo : RepoInfo) (data : PortfolioConfig),
         Cli.models (Cli.fromConfig h repo data) = cfg_models data
         /\ Cli.images (Cli.fromConfig h repo data) = cfg_images data
         /\ Web.models (Web.fromConfig h repo data) = cfg_models data
         /\ Web.images (Web.fromConfig h repo data) = cfg_images data)
  /\ (forall (h : Host) (repo : RepoInfo) (data : PortfolioConfig) (ts : list string),
         cfg_technologies data = Some ts ->
         Cli.technologies (Cli.fromConfig h repo data) = Some ts
         /\ Web.technologies (Web.fromConfig h repo data) = Some ts).
Proof.
  split; [|split].
  - intros h src repo.
    destruct (cli_autoDetect_assets h src repo) as [Hm Hi].
    assert (M : Cli.models (Cli.autoDetect h src repo) <> Some [])
      by (rewrite Hm; apply nonEmpty_not_empty).
    assert (I : Cli.images (Cli.autoDetect h src repo) <> Some [])
      by (rewrite Hi; apply nonEmpty_not_empty).
    repeat split; trivial.
    + intros H. apply cli_members_models in H. destruct H as [l [E1 E2]].
      symmetry in E2. apply strings_empty in E2. subst l. contradiction.
    + intros H. apply cli_members_images in H. destruct H as [l [E1 E2]].
      symmetry in E2. apply strings_empty in E2. subst l. contradiction.
  - intros h src repo.
    destruct (web_autoDetect_assets h src repo) as [Hm Hi].
    assert (M : Web.models (Web.autoDetect h src repo) <> Some [])
      by (rewrite Hm; apply nonEmpty_not_empty).
    assert (I : Web.images (Web.autoDetect h src repo) <> Some [])
      by (rewrite Hi; apply nonEmpty_not_empty).
    repeat split; trivial.
    + intros H. apply web_members_models in H. destruct H as [l [E1 E2]].
      symmetry in E2. apply strings_empty in E2. subst l. contradiction.
    + intros H. apply web_members_images in H. destruct H as [l [E1 E2]].
      symmetry in E2. apply strings_empty in E2. subst l. contradiction.
  - split; [intros h repo data; repeat split|].
    intros h repo data ts H. simpl. now rewrite H.
Qed.

(** C3 as stated fails on the override path: the valid override
    [{"name": "Shelf", "models": []}] gives an entry whose [models] is the
    empty array, and the JSON text has it. *)
Lemma empty_override_array_is_emitted :
  (exists data : PortfolioConfig,
      Schema.validateConfig Samples.host Samples.docEmptyModels = Schema.Success data
      /\ cfg_models data = Some [])
  /\ option_map Cli.models (Cli.processRepo Samples.host Samples.source Samples.repoShelf)
     = Some (Some [])
  /\ option_map (fun e => existsb (fun kv => (fst kv =? "models")
                                             && match snd kv with JArr [] => true | _ => false end)
                                  (Cli.entryMembers e))
       (Cli.processRepo Samples.host Samples.source Samples.repoShelf)
     = Some true
  /\ Js.includes (Cli.generate Samples.host Samples.source [Samples.repoShelf] [] Cli.json)
       (Samples.q "models" ++ ": []") = true
  /\ option_map (fun entries =>
                   Js.includes (Web.formatEntries entries Web.json)
                     (Samples.q "models" ++ ": []"))
       (Web.startScan Samples.host Samples.source [Samples.repoShelf])
     = Some true.
Proof.
  split; [eexists; split; reflexivity|].
  repeat split; vm_compute; reflexivity.
Qed.

(** The auto-detected [technologies] are not guarded in the same way: a
    repository without a language and without mapped topics gets the empty
    list, and the JSON text has it. *)
Remark empty_detected_technologies_are_emitted :
  option_map Cli.technologies (Cli.processRepo Samples.host Samples.source Samples.repoBare)
  = Some (Some [])
  /\ Js.includes (Cli.generate Samples.host Samples.source [Samples.repoBare] [] Cli.json)
       (Samples.q "technologies" ++ ": []") = true
  /\ option_map (fun entries =>
                   Js.includes (Web.formatEntries entries Web.json)
                     (Samples.q "technologies" ++ ": []"))
       (Web.startScan Samples.host Samples.source [Samples.repoBare])
     = Some true.
Proof. repeat split; vm_compute; reflexivity. Qed.

(** ** The invalid override of the scenario *)

Lemma cli_autoDetect_dateCompleted (h : Host) (src : Source) (repo : RepoInfo) :
  Cli.dateCompleted (Cli.autoDetect h src repo) = Some (Cli.toYearMonth h (pushedAt repo)).
Proof.
  unfold Cli.autoDetect. now destruct (Cli.describe _ _), (Cli.findAssetsInTree _).
Qed.

(** Whatever fails to validate sends the aggregator to auto-detection. *)
Lemma cli_processRepo_invalid (h : Host) (src : Source) (repo : RepoInfo)
    (raw : string) (doc : JValue) (errors : list string) :
  getFileContent src (name repo) ".portfolio.json" = Some raw ->
  JSON_parse h raw = Some doc ->
  Schema.validateConfig h doc = Schema.Failure errors ->
  Cli.processRepo h src repo = Some (Cli.autoDetect h src repo).
Proof.
  intros Hraw Hdoc Hbad. unfold Cli.processRepo.
  rewrite Hraw, Hdoc, Hbad. now destruct (Js.truthy (Some raw)).
Qed.

(** C6, as the code has it.  For the override [{"dateCompleted":
    "2024/03"}], [validateConfig] fails with two errors: one for the
    missing required [name], and exactly one that names [dateCompleted]
    and the YYYY-MM format; with a non-empty [name] beside the date that
    error is the only one.  A repository whose override is this document is
    auto-detected by the aggregator, its date taken from the last push. *)
Theorem bad_date_override_reported_and_skipped (h : Host) (src : Source)
    (repo : RepoInfo) (raw : string) :
  getFileContent src (name repo) ".portfolio.json" = Some raw ->
  JSON_parse h raw = Some Samples.docBadDate ->
  (exists nameError : string,
      Schema.validateConfig h Samples.docBadDate
      = Schema.Failure [nameError; "dateCompleted: Must be YYYY-MM format"]
      /\ Js.startsWith nameError "name: " = true
      /\ Js.includes nameError "dateCompleted" = false)
  /\ (forall n : string,
         n <> "" ->
         Schema.validateConfig h (JObj [("name", JStr n); ("dateCompleted", JStr "2024/03")])
         = Schema.Failure ["dateCompleted: Must be YYYY-MM format"])
  /\ Cli.processRepo h src repo = Some (Cli.autoDetect h src repo)
  /\ Cli.dateCompleted (Cli.autoDetect h src repo) = Some (Cli.toYearMonth h (pushedAt repo)).
Proof.
  intros Hraw Hdoc. split; [|split; [|split]].
  - exists "name: Required". repeat split.
  - intros n Hn. apply String.eqb_neq in Hn.
    unfold Schema.validateConfig, Schema.portfolioConfigSchema. cbn.
    rewrite Hn. reflexivity.
  - now apply cli_processRepo_invalid
      with raw Samples.docBadDate ["name: Required"; "dateCompleted: Must be YYYY-MM format"].
  - apply cli_autoDetect_dateCompleted.
Qed.

Lemma bad_date_override_reported_and_skipped_witness :
  (getFileContent Samples.source (name Samples.repoBadDate) ".portfolio.json"
   = Some Samples.rawBadDate
   /\ JSON_parse Samples.host Samples.rawBadDate = Some Samples.docBadDate)
  /\ (exists nameError : string,
         Schema.validateConfig Samples.host Samples.docBadDate
         = Schema.Failure [nameError; "dateCompleted: Must be YYYY-MM format"]
         /\ Js.startsWith nameError "name: " = true
         /\ Js.includes nameError "dateCompleted" = false)
  /\ (forall n : string,
         n <> "" ->
         Schema.validateConfig Samples.host
           (JObj [("name", JStr n); ("dateCompleted", JStr "2024/03")])
         = Schema.Failure ["dateCompleted: Must be YYYY-MM format"])
  /\ Cli.processRepo Samples.host Samples.source Samples.repoBadDate
     = Some (Cli.autoDetect Samples.host Samples.source Samples.repoBadDate)
  /\ Cli.dateCompleted (Cli.autoDetect Samples.host Samples.source Samples.repoBadDate)
     = Some (Cli.toYearMonth Samples.host (pushedAt Samples.repoBadDate)).
Proof.
  split; [split; reflexivity|].
  apply (@bad_date_override_reported_and_skipped Samples.host Samples.source
           Samples.repoBadDate Samples.rawBadDate); reflexivity.
Defined.

(** C6 as stated fails: the validator reports two errors for the
    document, not one. *)
Lemma bad_date_override_has_two_errors :
  Schema.validateConfig Samples.host Samples.docBadDate
  = Schema.Failure ["name: Required"; "dateCompleted: Must be YYYY-MM format"]
  /\ (forall e : string,
         Schema.validateConfig Samples.host Samples.docBadDate <> Schema.Failure [e]).
Proof.
  split; [reflexivity|]. intros e H. discriminate H.
Qed.

(** ** The README scenario *)

(** The README parser of the local scan on the README [# Title], blank,
    [![badge](url)], blank, [This project does X. It also does Y.], blank,
    [More text.]: the first paragraph is the description and its first
    sentence the short description. *)
Lemma parseReadme_scenario :
  Readme.parseReadme (Some Samples.readmeScenario)
  = {| Readme.description := Some "This project does X. It also does Y.";
       Readme.shortDescription := Some "This project does X." |}.
Proof. reflexivity. Qed.

(** How the parser gets there: the title, the blank lines and the badge
    are skipped, the paragraph ends at the blank line after it, and the
    sentence ends with its first terminator. *)
Lemma readme_scenario_steps :
  Readme.extractSection Samples.readmeScenario ["description"; "about"; "overview"] = None
  /\ map Readme.isSkippable (Js.split "010" Samples.readmeScenario)
     = [true; true; true; true; false; true; false]
  /\ Readme.extractFirstParagraph Samples.readmeScenario
     = Some "This project does X. It also does Y."
  /\ Js.matchSentence "This project does X. It also does Y." = Some "This project does X.".
Proof. repeat split. Qed.

(** The steps in general.  Before any content a line to skip is passed
    over; after content a line to skip ends the paragraph; any other line
    is added to it, trimmed. *)
Lemma firstParagraph_skips (pastTitle : bool) (line : string) (rest : list string) :
  Readme.isSkippable line = true ->
  Readme.firstParagraph pastTitle [] (line :: rest)
  = Readme.firstParagraph (pastTitle || Readme.isHeading line) [] rest.
Proof.
  intros H. simpl. rewrite H.
  destruct pastTitle; simpl; [reflexivity|]. now destruct (Readme.isHeading line).
Qed.

Lemma firstParagraph_stops (line first : string) (more rest : list string) :
  Readme.isSkippable line = true ->
  Readme.firstParagraph true (first :: more) (line :: rest) = first :: more.
Proof. intros H. simpl. now rewrite H. Qed.

Lemma firstParagraph_collects (paragraph : list string) (line : string) (rest : list string) :
  Readme.isSkippable line = false ->
  Readme.firstParagraph true paragraph (line :: rest)
  = Readme.firstParagraph true (paragraph ++ [Js.trim line]) rest.
Proof. intros H. simpl. now rewrite H. Qed.

Lemma sentence_rest_spec (s m : string) :
  Js.sentence_rest s = Some m ->
  exists body t rest,
    m = body ++ String t "" /\ s = m ++ rest
    /\ Js.is_terminator t = true /\ Sentence.unterminated body = true.
Proof.
  revert m. induction s as [|c s IH]; simpl; intros m H; [discriminate|].
  destruct (Js.is_terminator c) eqn:T.
  - injection H as <-. now exists "", c, s.
  - destruct (Js.sentence_rest s) as [m'|]; [|discriminate]. injection H as <-.
    destruct (IH m' eq_refl) as [body [t [rest [-> [-> [Ht Hb]]]]]].
    exists (String c body), t, rest. simpl. now rewrite T, Hb.
Qed.

(** The match of the sentence pattern is the start of the text up to and
    including its first [.], [!] or [?], with at least one character
    before it. *)
Lemma matchSentence_spec (s m : string) :
  Js.matchSentence s = Some m ->
  exists body t rest,
    m = body ++ String t "" /\ s = m ++ rest
    /\ Js.is_terminator t = true /\ Sentence.unterminated body = true /\ body <> "".
Proof.
  destruct s as [|c s]; simpl; [discriminate|].
  destruct (Js.is_terminator c) eqn:T; [discriminate|].
  destruct (Js.sentence_rest s) as [m'|] eqn:E; [|discriminate].
  intros H. injection H as <-.
  destruct (sentence_rest_spec _ E) as [body [t [rest [-> [-> [Ht Hb]]]]]].
  exists (String c body), t, rest. simpl. rewrite T, Hb. repeat split; trivial. discriminate.
Qed.

(** The aggregators do not call the parser: their own loop over the lines
    keeps the image line and gathers three lines across the blank ones. *)
Remark aggregator_readme_scenario :
  Cli.describe None (Some Samples.readmeScenario)
  = (Some "![badge](url) This project does X. It also does Y. More text.",
     Some "![badge](url) This project does X. It also does Y. More text.")
  /\ Web.describe None (Some Samples.readmeScenario)
     = Cli.describe None (Some Samples.readmeScenario).
Proof. split; reflexivity. Qed.

(** The README part of the aggregator's [processRepo] on the README of the
    scenario, whatever the repository's description is: without one, both
    fields are the three gathered lines; with one, the short description
    is that description and the description is the longer of the two. *)
Lemma cli_describe_scenario (repoDescription : option string) :
  Cli.describe repoDescription (Some Samples.readmeScenario)
  = if Js.truthy repoDescription
    then (repoDescription,
          match repoDescription with
          | Some d =>
              if (String.length d <? 61)%nat
              then Some "![badge](url) This project does X. It also does Y. More text."
              else repoDescription
          | None => None
          end)
    else (Some "![badge](url) This project does X. It also does Y. More text.",
          Some "![badge](url) This project does X. It also does Y. More text.").
Proof.
  unfold Cli.describe, Js.or_else.
  destruct (Js.truthy repoDescription) eqn:T; [|reflexivity].
  destruct repoDescription as [d|]; [|discriminate T]. reflexivity.
Qed.

Lemma web_describe_scenario (repoDescription : option string) :
  Web.describe repoDescription (Some Samples.readmeScenario)
  = Cli.describe repoDescription (Some Samples.readmeScenario).
Proof.
  unfold Web.describe, Cli.describe, Js.or_else.
  destruct (Js.truthy repoDescription) eqn:T; [|reflexivity].
  destruct repoDescription as [d|]; [|discriminate T]. reflexivity.
Qed.

(** C7, on the code.  The README parser of the local scan
    ([extractFirstParagraph] and [firstSentence] under [parseReadme])
    returns [This project does X. It also does Y.] and [This project does
    X.] for the README of the scenario.  The aggregator's [processRepo]
    does not: its own loop over the lines skips blank lines, [[![] badges
    and markup lines only, so it keeps the image line [![badge](url)], and
    it does not stop at a blank line but gathers three lines.  For every
    repository without override document whose README is the scenario's,
    the entry's description and short description are both
    [![badge](url) This project does X. It also does Y. More text.] when
    the repository has no description (the sentence pattern cannot match a
    text that starts with [!]), and otherwise the short description is the
    repository's description and the description the longer of that and
    the gathered text.  The browser variant behaves as the aggregator. *)
Theorem aggregator_readme_keeps_image_line :
  Readme.parseReadme (Some Samples.readmeScenario)
  = {| Readme.description := Some "This project does X. It also does Y.";
       Readme.shortDescription := Some "This project does X." |}
  /\ Cli.collectParagraphs false [] (Js.split "010" Samples.readmeScenario)
     = ["![badge](url)"; "This project does X. It also does Y."; "More text."]
  /\ Js.matchSentence "![badge](url) This project does X. It also does Y. More text." = None
  /\ (forall (h : Host) (src : Source) (repo : RepoInfo),
         Js.truthy (getFileContent src (name repo) ".portfolio.json") = false ->
         getFileContent src (name repo) "README.md" = Some Samples.readmeScenario ->
         exists e : Cli.PortfolioEntry,
           Cli.processRepo h src repo = Some e
           /\ (Js.truthy (Repo.description repo) = false ->
               Cli.description e
               = Some "![badge](url) This project does X. It also does Y. More text."
               /\ Cli.shortDescription e
                  = Some "![badge](url) This project does X. It also does Y. More text.")
           /\ (forall d : string,
                  Repo.description repo = Some d -> d <> "" ->
                  Cli.shortDescription e = Some d
                  /\ Cli.description e
                     = if (String.length d <? 61)%nat
                       then Some "![badge](url) This project does X. It also does Y. More text."
                       else Some d))
  /\ (forall (h : Host) (src : Source) (repo : RepoInfo),
         Js.truthy (getFileContent src (name repo) ".portfolio.json") = false ->
         getFileContent src (name repo) "README.md" = Some Samples.readmeScenario ->
         Js.truthy (Repo.description repo) = false ->
         exists e : Web.PortfolioEntry,
           Web.processRepo h src repo = Web.Entry e
           /\ Web.description e
              = Some "![badge](url) This project does X. It also does Y. More text."
           /\ Web.shortDescription e
              = Some "![badge](url) This project does X. It also does Y. More text.")
  /\ option_map Cli.shortDescription
       (Cli.processRepo Samples.host Samples.sourceReadme Samples.repoTitle)
     = Some (Some "![badge](url) This project does X. It also does Y. More text.")
  /\ option_map Cli.description
       (Cli.processRepo Samples.host Samples.sourceReadme Samples.repoTitle)
     = Some (Some "![badge](url) This project does X. It also does Y. More text.").
Proof.
  split; [reflexivity|]. split; [reflexivity|]. split; [reflexivity|].
  split; [|split; [|split; reflexivity]].
  - intros h src repo Hcfg Hreadme.
    exists (Cli.autoDetect h src repo). split.
    + unfold Cli.processRepo. now rewrite Hcfg.
    + unfold Cli.autoDetect, Cli.findAssetsInTree.
      rewrite Hreadme, cli_describe_scenario. split.
      * intros T. rewrite T. split; reflexivity.
      * intros d Hd Hne. rewrite Hd.
        assert (T : Js.truthy (Some d) = true).
        { unfold Js.truthy. apply negb_true_iff. now apply String.eqb_neq. }
        rewrite T. split; reflexivity.
  - intros h src repo Hcfg Hreadme Hdesc.
    exists (Web.autoDetect h src repo). split.
    + unfold Web.processRepo. now rewrite Hcfg.
    + unfold Web.autoDetect.
      rewrite Hreadme, web_describe_scenario, cli_describe_scenario, Hdesc.
      split; reflexivity.
Qed.

(** The general part of the theorem at a repository without description
    and without override document. *)
Lemma aggregator_readme_keeps_image_line_witness :
  exists e : Cli.PortfolioEntry,
    Cli.processRepo Samples.host Samples.sourceReadme Samples.repoTitle = Some e
    /\ Cli.description e
       = Some "![badge](url) This project does X. It also does Y. More text."
    /\ Cli.shortDescription e
       = Some "![badge](url) This project does X. It also does Y. More text.".
Proof.
  destruct (proj1 (proj2 (proj2 (proj2 aggregator_readme_keeps_image_line)))
              Samples.host Samples.sourceReadme Samples.repoTitle eq_refl eq_refl)
    as [e [He [Hnone _]]].
  exists e. split; [exact He|]. exact (Hnone eq_refl).
Defined.

(** ** Asset classification *)

(** The scenario of the specification, in the three variants: of
    [docs/photo.png], [src/icon.png] and [cad/arm.stl], the image is the
    one under [docs/] and the model is the [.stl] file. *)
Lemma asset_scenario :
  Cli.findAssetsInTree Samples.listingScenario = (["cad/arm.stl"], ["docs/photo.png"])
  /\ filter Web.isModel Samples.listingScenario = ["cad/arm.stl"]
  /\ filter Web.isImage Samples.listingScenario = ["docs/photo.png"]
  /\ Assets.models (Assets.detectAssets Samples.treeScenario) = ["cad/arm.stl"]
  /\ Assets.images (Assets.detectAssets Samples.treeScenario) = ["docs/photo.png"].
Proof. repeat split. Qed.

Lemma cli_findAssets_models (files : list string) (file : string) :
  In file (fst (Cli.findAssetsInTree files))
  <-> In file files /\ In (Cli.extOf file) Cli.MODEL_EXTS.
Proof.
  unfold Cli.findAssetsInTree. cbn [fst]. rewrite filter_In.
  unfold Cli.isModel. now rewrite mem_In.
Qed.

Lemma rev_string_app (a b : string) :
  Js.rev_string (a ++ b) = Js.rev_string b ++ Js.rev_string a.
Proof.
  induction a as [|c a IH]; simpl.
  - now rewrite string_app_empty_r.
  - now rewrite IH, string_app_assoc.
Qed.

Lemma rev_string_involutive (s : string) : Js.rev_string (Js.rev_string s) = s.
Proof.
  induction s as [|c s IH]; simpl; [reflexivity|].
  now rewrite rev_string_app, IH.
Qed.

Lemma endsWith_iff (s e : string) : Js.endsWith s e = true <-> exists p, s = p ++ e.
Proof.
  unfold Js.endsWith. rewrite prefix_iff. split.
  - intros [q H]. exists (Js.rev_string q).
    rewrite <- (rev_string_involutive s), H, rev_string_app.
    now rewrite rev_string_involutive.
  - intros [p ->]. exists (Js.rev_string p). apply rev_string_app.
Qed.

Lemma toLowerCase_app (a b : string) :
  Js.toLowerCase (a ++ b) = Js.toLowerCase a ++ Js.toLowerCase b.
Proof. induction a as [|c a IH]; simpl; [reflexivity | now rewrite IH]. Qed.

Lemma toLowerCase_split (s p e : string) :
  Js.toLowerCase s = p ++ e ->
  exists p' e', s = p' ++ e' /\ Js.toLowerCase p' = p /\ Js.toLowerCase e' = e.
Proof.
  revert s. induction p as [|d p IH]; intros s H.
  - now exists "", s.
  - destruct s as [|c s]; [discriminate|]. simpl in H. injection H as Hc Hs.
    destruct (IH s Hs) as [p' [e' [-> [Hp He]]]].
    exists (String c p'), e'. simpl. now rewrite Hc, Hp.
Qed.

Lemma lower_ascii_dot (c : ascii) : Ascii.eqb (Js.lower_ascii c) "." = Ascii.eqb c ".".
Proof.
  destruct c as [[] [] [] [] [] [] [] []]; reflexivity.
Qed.

Lemma dotless_toLowerCase (s : string) : Ext.dotless (Js.toLowerCase s) = Ext.dotless s.
Proof.
  induction s as [|c s IH]; simpl; [reflexivity|].
  now rewrite lower_ascii_dot, IH.
Qed.

Lemma split_nonempty (sep : ascii) (s : string) : Js.split sep s <> [].
Proof.
  destruct s as [|c s]; simpl; [discriminate|].
  destruct (Ascii.eqb c sep); [discriminate|].
  destruct (Js.split sep s); discriminate.
Qed.

Lemma split_dotless (s : string) : Ext.dotless s = true -> Js.split "." s = [s].
Proof.
  induction s as [|c s IH]; simpl; [reflexivity|].
  intros H. apply andb_true_iff in H. destruct H as [Hc Hs].
  apply negb_true_iff in Hc. rewrite Hc, (IH Hs). reflexivity.
Qed.

Lemma split_at_sep (sep : ascii) (a b : string) :
  Js.split sep (a ++ String sep b) = (Js.split sep a ++ Js.split sep b)%list.
Proof.
  induction a as [|c a IH]; simpl.
  - now rewrite Ascii.eqb_refl.
  - destruct (Ascii.eqb c sep); [now rewrite IH|].
    rewrite IH. destruct (Js.split sep a) eqn:E; [now apply split_nonempty in E|].
    reflexivity.
Qed.

Lemma pop_last (l : list string) (x : string) : Js.pop (l ++ [x]) = Some x.
Proof. unfold Js.pop. now rewrite rev_app_distr. Qed.

(** The extension the aggregator computes for a path with a dot: the text
    after its last dot, in lower case. *)
Lemma cli_extOf_after_dot (p x : string) :
  Ext.dotless x = true -> Cli.extOf (p ++ "." ++ x) = "." ++ Js.toLowerCase x.
Proof.
  intros H. unfold Cli.extOf.
  change (p ++ "." ++ x) with (p ++ String "." x).
  now rewrite split_at_sep, (split_dotless _ H), pop_last.
Qed.

Lemma cli_extOf_dotless (file : string) :
  Ext.dotless file = true -> Cli.extOf file = "." ++ Js.toLowerCase file.
Proof.
  intros H. unfold Cli.extOf. now rewrite (split_dotless _ H).
Qed.

(** A text with a dot, cut at its last dot. *)
Lemma last_dot (s : string) :
  Ext.dotless s = false -> exists p x, s = p ++ "." ++ x /\ Ext.dotless x = true.
Proof.
  induction s as [|c s IH]; simpl; [discriminate|].
  intros H. destruct (Ext.dotless s) eqn:D.
  - rewrite andb_true_r in H. apply negb_false_iff, Ascii.eqb_eq in H. subst c.
    now exists "", s.
  - destruct (IH eq_refl) as [p [x [-> Hx]]]. now exists (String c p), x.
Qed.

Lemma toLowerCase_cons (s r : string) (d : ascii) :
  Js.toLowerCase s = String d r ->
  exists c s', s = String c s' /\ Js.lower_ascii c = d /\ Js.toLowerCase s' = r.
Proof.
  destruct s as [|c s]; [discriminate|]. simpl. intros H. injection H as Hc Hs.
  now exists c, s.
Qed.

(** Every extension of the two tables is a dot and a text without dots. *)
Lemma known_extension_shape (e : string) :
  In e (Cli.MODEL_EXTS ++ Cli.IMAGE_EXTS)%list ->
  exists x, e = "." ++ x /\ Ext.dotless x = true.
Proof.
  simpl. intros H.
  repeat (destruct H as [<-|H]; [eexists; split; reflexivity|]). destruct H.
Qed.

Lemma cli_extOf_of_extension (file e : string) :
  In e (Cli.MODEL_EXTS ++ Cli.IMAGE_EXTS)%list ->
  Ext.hasExtension file e = true -> Cli.extOf file = e.
Proof.
  intros He H. destruct (@known_extension_shape e He) as [x [-> Hx]].
  apply endsWith_iff in H. destruct H as [p H].
  apply toLowerCase_split in H. destruct H as [p' [e' [-> [_ He']]]].
  apply toLowerCase_cons in He'. destruct He' as [c [x' [-> [Hc Hx']]]].
  assert (c = "."%char) as ->.
  { apply Ascii.eqb_eq. rewrite <- lower_ascii_dot, Hc. reflexivity. }
  rewrite <- Hx'. apply cli_extOf_after_dot.
  now rewrite <- dotless_toLowerCase, Hx'.
Qed.

Lemma cli_extOf_hasExtension (file : string) :
  Ext.dotless file = false -> Ext.hasExtension file (Cli.extOf file) = true.
Proof.
  intros H. destruct (last_dot _ H) as [p [x [-> Hx]]].
  rewrite (cli_extOf_after_dot _ _ Hx).
  apply endsWith_iff. exists (Js.toLowerCase p).
  now rewrite toLowerCase_app.
Qed.

(** The aggregator's test for a model, read on the path: the path ends in
    one of the six extensions, case apart, or it has no dot at all and,
    with a dot put before it, is one of them. *)
Lemma cli_isModel_iff (file : string) :
  Cli.isModel file = true
  <-> (exists e, In e Cli.MODEL_EXTS /\ Ext.hasExtension file e = true)
      \/ (Ext.dotless file = true /\ In ("." ++ Js.toLowerCase file) Cli.MODEL_EXTS).
Proof.
  unfold Cli.isModel. rewrite mem_In. split.
  - intros H. destruct (Ext.dotless file) eqn:D.
    + right. split; [reflexivity|]. now rewrite <- (cli_extOf_dotless _ D).
    + left. exists (Cli.extOf file). split; [exact H|]. now apply cli_extOf_hasExtension.
  - intros [[e [He H]] | [D H]].
    + rewrite (@cli_extOf_of_extension file e); [exact He | | exact H].
      apply in_or_app. now left.
    + now rewrite (cli_extOf_dotless _ D).
Qed.

Lemma toLowerCase_known_extension (e : string) :
  In e (Cli.MODEL_EXTS ++ Cli.IMAGE_EXTS)%list -> Js.toLowerCase e = e.
Proof.
  simpl. intros H. repeat (destruct H as [<-|H]; [reflexivity|]). destruct H.
Qed.

Lemma endsWith_hasExtension (f e : string) :
  In e (Cli.MODEL_EXTS ++ Cli.IMAGE_EXTS)%list ->
  Js.endsWith f e = true -> Ext.hasExtension f e = true.
Proof.
  intros He H. apply endsWith_iff in H. destruct H as [p ->].
  apply endsWith_iff. exists (Js.toLowerCase p).
  now rewrite toLowerCase_app, (@toLowerCase_known_extension e He).
Qed.

(** A path under one of the asset directories has a slash, so with a dot
    before it it is none of the image extensions. *)
Lemma cli_image_has_dot (file d : string) :
  In d Cli.IMAGE_DIRS -> Js.startsWith file d = true ->
  In (Cli.extOf file) Cli.IMAGE_EXTS -> Ext.dotless file = false.
Proof.
  intros Hd Hs He. destruct (Ext.dotless file) eqn:D; [|reflexivity].
  rewrite (cli_extOf_dotless _ D) in He.
  apply prefix_iff in Hs. destruct Hs as [q ->].
  rewrite toLowerCase_app in He. exfalso.
  simpl in Hd.
  repeat (destruct Hd as [<-|Hd];
          [simpl in He;
           repeat (destruct He as [He|He]; [discriminate He|]); destruct He|]).
  destruct Hd.
Qed.

(** In the aggregator an image has one of the six image extensions, case
    apart, and is under one of the five directories. *)
Lemma cli_isImage_only_if (file : string) :
  Cli.isImage file = true ->
  (exists e, In e Cli.IMAGE_EXTS /\ Ext.hasExtension file e = true)
  /\ (exists d, In d Cli.IMAGE_DIRS /\ Js.startsWith file d = true).
Proof.
  unfold Cli.isImage. rewrite andb_true_iff, mem_In, existsb_exists.
  intros [He [d [Hd Hs]]]. split; [|now exists d].
  exists (Cli.extOf file). split; [exact He|].
  apply cli_extOf_hasExtension. now apply cli_image_has_dot with d.
Qed.

(** So it is in the browser variant. *)
Lemma web_isImage_only_if (f : string) :
  Web.isImage f = true ->
  (exists e, In e Web.IMAGE_EXTS /\ Ext.hasExtension f e = true)
  /\ (exists d, In d Web.IMAGE_DIRS /\ Js.startsWith f d = true).
Proof.
  unfold Web.isImage. rewrite andb_true_iff, !existsb_exists.
  intros [[e [He H]] [d [Hd Hs]]]. split; [|now exists d].
  exists e. split; [exact He|].
  apply endsWith_hasExtension; [|exact H]. apply in_or_app. now right.
Qed.

(** The browser variant's test for a model is the match of the path's end
    with the lower-case extensions, case and all. *)
Lemma web_isModel_iff (f : string) :
  Web.isModel f = true <-> exists e, In e Web.MODEL_EXTS /\ Js.endsWith f e = true.
Proof. unfold Web.isModel. now rewrite existsb_exists. Qed.

(** C8, on the code.  In the aggregator every path that ends in one of
    the six model extensions, case apart, is a model, whatever its
    directory.  The browser variant matches the extensions with
    [endsWith], case and all: of the listing [cad/ARM.STL] it finds no
    model, where the aggregator and the local detector find the file.
    Three more places where the code departs from the rule: the
    aggregator takes a file named [obj], without a dot, for a model; the
    local detector lists an image that lies in the root of the repository,
    under none of the asset directories; and it does not look under
    [build] and the other pruned directories. *)
Theorem web_model_extension_is_case_sensitive :
  (forall file e : string,
      In e Cli.MODEL_EXTS -> Ext.hasExtension file e = true -> Cli.isModel file = true)
  /\ Ext.hasExtension "cad/ARM.STL" ".stl" = true
  /\ Web.isModel "cad/ARM.STL" = false
  /\ filter Web.isModel ["cad/ARM.STL"] = []
  /\ fst (Cli.findAssetsInTree ["cad/ARM.STL"]) = ["cad/ARM.STL"]
  /\ Assets.models (Assets.detectAssets [Assets.Dir "cad" [Assets.File "ARM.STL"]])
     = ["cad/ARM.STL"]
  /\ match Web.processRepo Samples.host Samples.source Samples.repoCad with
     | Web.Entry e => Web.models e
     | Web.OutOfModel => Some []
     end = None
  /\ option_map Cli.models (Cli.processRepo Samples.host Samples.source Samples.repoCad)
     = Some (Some ["cad/ARM.STL"])
  /\ fst (Cli.findAssetsInTree ["obj"]) = ["obj"]
  /\ Assets.images (Assets.detectAssets [Assets.File "logo.png"]) = ["logo.png"]
  /\ Assets.models (Assets.detectAssets [Assets.Dir "build" [Assets.File "arm.stl"]]) = [].
Proof.
  split.
  { intros file e He H. apply cli_isModel_iff. left. now exists e. }
  repeat split.
Qed.

(** ** The update command *)

(** C9, as the code has it.  [update] keeps [name], [status],
    [dateCompleted], [media], [links], [featured] and [exclude] as the
    existing document has them, set or not; keeps [technologies],
    [category], [shortDescription], [description] and [thumbnail] where the
    existing value is set and not empty, and puts the freshly detected
    value there otherwise; and always puts the detected [models] and
    [images], absent when none is found. *)
Theorem update_keeps_set_fields_and_refreshes_assets (existing : PortfolioConfig)
    (tech : Commands.TechResult) (assets : Assets.AssetResult)
    (readme : Readme.ReadmeResult) (meta : Metadata.MetadataResult) :
  let updated := Commands.update existing tech assets readme meta in
  (cfg_name updated = cfg_name existing
   /\ cfg_status updated = cfg_status existing
   /\ cfg_dateCompleted updated = cfg_dateCompleted existing
   /\ cfg_media updated = cfg_media existing
   /\ cfg_links updated = cfg_links existing
   /\ cfg_featured updated = cfg_featured existing
   /\ cfg_exclude updated = cfg_exclude existing)
  /\ (cfg_technologies updated
      = match cfg_technologies existing with
        | Some (t :: ts) => Some (t :: ts)
        | _ => Commands.nonEmpty (Commands.technologies tech)
        end
      /\ cfg_category updated
         = (if Js.truthy (cfg_category existing) then cfg_category existing
            else Some (Commands.category tech))
      /\ cfg_shortDescription updated
         = (if Js.truthy (cfg_shortDescription existing) then cfg_shortDescription existing
            else Js.or_else (Readme.shortDescription readme) (Metadata.shortDescription meta))
      /\ cfg_description updated
         = (if Js.truthy (cfg_description existing) then cfg_description existing
            else Js.or_else (Readme.description readme) (Metadata.description meta))
      /\ cfg_thumbnail updated
         = (if Js.truthy (cfg_thumbnail existing) then cfg_thumbnail existing
            else Assets.thumbnail assets))
  /\ (cfg_models updated = Commands.nonEmpty (Assets.models assets)
      /\ cfg_images updated = Commands.nonEmpty (Assets.images assets)
      /\ cfg_models updated <> Some []
      /\ cfg_images updated <> Some []).
Proof.
  simpl. repeat split.
  - now destruct (cfg_technologies existing) as [[|t ts]|].
  - now destruct (Js.truthy (cfg_category existing)).
  - now destruct (Js.truthy (cfg_shortDescription existing)).
  - now destruct (Js.truthy (cfg_description existing)).
  - now destruct (Js.truthy (cfg_thumbnail existing)).
  - now destruct (Assets.models assets).
  - now destruct (Assets.images assets).
Qed.

(** C9 as stated fails twice.  A document that sets only its name has no
    [status] and no [dateCompleted]; the detector finds [Completed] and
    [2024-03]; the updated document has neither.  And a document whose
    [technologies] are set to the empty list gets the detected ones. *)
Lemma update_does_not_refresh_status :
  (cfg_status Samples.existingNameOnly = None
   /\ Metadata.status Samples.metaSample = Some Completed
   /\ cfg_status (Commands.update Samples.existingNameOnly Samples.techSample
                    Samples.assetsSample Samples.readmeSample Samples.metaSample)
      = None)
  /\ (cfg_dateCompleted Samples.existingNameOnly = None
      /\ Metadata.dateCompleted Samples.metaSample = Some "2024-03"
      /\ cfg_dateCompleted (Commands.update Samples.existingNameOnly Samples.techSample
                              Samples.assetsSample Samples.readmeSample Samples.metaSample)
         = None)
  /\ (cfg_technologies Samples.existingEmptyTech = Some []
      /\ cfg_technologies (Commands.update Samples.existingEmptyTech Samples.techSample
                             Samples.assetsSample Samples.readmeSample Samples.metaSample)
         = Some ["React"]).
Proof. repeat split. Qed.

(** [init] writes what [update] leaves alone. *)
Remark init_writes_status :
  cfg_status (Commands.init Samples.techSample Samples.assetsSample Samples.readmeSample
                Samples.metaSample)
  = Some Completed
  /\ cfg_dateCompleted (Commands.init Samples.techSample Samples.assetsSample
                          Samples.readmeSample Samples.metaSample)
     = Some "2024-03".
Proof. split; reflexivity. Qed.
